(** * gio: pointer operation encoding and headless windows

    A shallow embedding of two packages of the repository:

    - [pointer] (io/pointer): the hit-testing operations [AreaOp],
      [CursorNameOp], [InputOp] and their encoding into the operation
      buffer, and the [Buttons] bit set;
    - [headless] (gpu/headless): backend selection, the window life cycle
      and the frame / screenshot cycle of an offscreen window.

    Go values are modelled as follows.  An [int] is a [Z]; the conversions
    [uint32(x)] and [byte(x)] are written out as remainders.  A byte is a [Z]
    in [0, 256).  An interface value is an [option]: [None] is the nil
    interface, and calling a method through it panics.  A Go [error] is an
    [option err].  A pair [(v, err)] returned by a Go function is a pair. *)

From Stdlib Require Import ZArith List Lia Bool String.
From stdpp Require Import base list.

Import ListNotations.
Local Open Scope Z_scope.

Set Implicit Arguments.

(** ** Package image: integer points and rectangles *)

Module image.

Record Point := { X : Z; Y : Z }.

Record Rectangle := { Min : Point; Max : Point }.

(** The zero value of a point, as in [image.Rectangle{Max: size}]. *)
Definition ZP : Point := {| X := 0; Y := 0 |}.

End image.

(** ** Panics

    A Go panic aborts the call.  The reasons that occur in the two packages
    are kept apart so that theorems can say which one was raised. *)

Inductive panic :=
| NilDereference                      (* method call through a nil interface *)
| IndexOutOfRange                     (* slice index or slicing out of range *)
| TagMustBeNonNil                     (* panic("Tag must be non-nil") *)
| InvalidScrollRange (b : image.Rectangle). (* panic(fmt.Errorf("invalid scroll range value %v", b)) *)

Inductive result (A : Type) :=
| Done (a : A)
| Panic (why : panic).

Arguments Done {A} a.
Arguments Panic {A} why.

(** ** A state-and-panic monad

    [M S A] is a computation over a state [S] that either finishes with a
    value and a new state or panics.  The operation buffer (package pointer)
    and the log of backend calls (package headless) are such states. *)

Definition M (S A : Type) : Type := S -> result (A * S).

Definition ret {S A} (a : A) : M S A := fun s => Done (a, s).

Definition bind {S A B} (m : M S A) (k : A -> M S B) : M S B :=
  fun s => match m s with
           | Done (a, s') => k a s'
           | Panic p => Panic p
           end.

Definition raise {S A} (p : panic) : M S A := fun _ => Panic p.

Notation "'do' x <- m ; k" := (bind m (fun x => k))
  (at level 10, x name, m at level 100, k at level 200).
Notation "'do' ' pat <- m ; k" := (bind m (fun x => match x with pat => k end))
  (at level 10, pat pattern, m at level 100, k at level 200).
Notation "'run' m ; k" := (bind m (fun _ => k))
  (at level 10, m at level 100, k at level 200).

(** ** Package internal/ops: the operation buffer *)

Module ops.

(** A value stored in the reference table of the buffer: a handler tag
    (an opaque identity) or a cursor name. *)
Inductive Ref :=
| RefTag (t : nat)
| RefCursor (name : string).

Record Ops := { data : list Z; refs : list Ref }.

(** A [[]byte] slice returned by [Write]: a window into [data]. *)
Record Slice := { off : nat; len : nat }.

(** Modelled from the spec: [ops.Write] is not among the source files.  By
    section 4.1 and section 6 it appends a record of the opcode's declared
    length to the append-only buffer; the record starts out as zero bytes
    and the caller then fills it in. *)
Definition Write (o : Ops) (n : nat) : Slice * Ops :=
  ({| off := length (data o); len := n |},
   {| data := data o ++ replicate n 0; refs := refs o |}).

(** Modelled from the spec: [ops.Write1] is not among the source files.  By
    section 4.1 and section 6 a string or tag payload is not written inline:
    the record keeps its fixed length and the value goes to an out-of-band
    table of the same buffer. *)
Definition Write1 (o : Ops) (n : nat) (ref1 : Ref) : Slice * Ops :=
  ({| off := length (data o); len := n |},
   {| data := data o ++ replicate n 0; refs := refs o ++ [ref1] |}).

End ops.

(** ** Package pointer *)

Module pointer.

Import image ops.

(** The encoding runs in the state-and-panic monad over the buffer. *)
Definition enc (A : Type) : Type := M Ops A.

(** Conversions [byte(x)] and [uint32(x)] of Go: the low bits are kept. *)
Definition byte_of (x : Z) : Z := x mod 256.
Definition uint32 (x : Z) : Z := x mod 2 ^ 32.

(** [data[i] = b]: panics when [i] is outside the slice. *)
Definition set_byte (s : Slice) (i : nat) (b : Z) : enc unit :=
  fun o =>
    if (i <? len s)%nat
    then Done (tt, {| data := <[(off s + i)%nat := b]> (data o); refs := refs o |})
    else Panic IndexOutOfRange.

(** [data[k:]]: panics when [k] exceeds the length of the slice. *)
Definition slice_from (s : Slice) (k : nat) : enc Slice :=
  if (k <=? len s)%nat
  then ret {| off := (off s + k)%nat; len := (len s - k)%nat |}
  else raise IndexOutOfRange.

(** [binary.LittleEndian.PutUint32(b, v)]: a bounds check on [b[3]], then
    the four bytes of [v], least significant first. *)
Definition PutUint32 (b : Slice) (v : Z) : enc unit :=
  if (3 <? len b)%nat then
    run set_byte b 0 (byte_of v);
    run set_byte b 1 (byte_of (Z.shiftr v 8));
    run set_byte b 2 (byte_of (Z.shiftr v 16));
    set_byte b 3 (byte_of (Z.shiftr v 24))
  else raise IndexOutOfRange.

(** The four bytes [PutUint32] writes for [v], in buffer order. *)
Definition le32 (v : Z) : list Z :=
  [byte_of v; byte_of (Z.shiftr v 8); byte_of (Z.shiftr v 16); byte_of (Z.shiftr v 24)].

(** Reading a byte string as a little-endian number. *)
Definition le_value (bs : list Z) : Z :=
  fold_right (fun b acc => b + 256 * acc) 0 bs.

Definition is_byte (b : Z) : Prop := 0 <= b < 256.

(** The 4-byte little-endian integer at offset [i] of a record. *)
Definition field32 (rec : list Z) (i : nat) : Z := le_value (take 4 (drop i rec)).

(** *** Types of the package *)

Inductive areaKind := areaRect | areaEllipse.

Definition areaKind_val (k : areaKind) : Z :=
  match k with areaRect => 0 | areaEllipse => 1 end.

Record AreaOp := { kind : areaKind; rect : Rectangle }.

Record CursorNameOp := { Name : string }.

(** [Tag] is an [event.Tag], an interface: [None] is the nil tag. *)
Record InputOp := {
  Tag : option nat;
  Grab : bool;
  Types : Z;
  ScrollBounds : Rectangle
}.

(** Event types: [(1 << iota) >> 1]. *)
Definition Cancel : Z := 0.
Definition Press : Z := 1.
Definition Release : Z := 2.
Definition Move : Z := 4.
Definition Drag : Z := 8.
Definition Enter : Z := 16.
Definition Leave : Z := 32.
Definition Scroll : Z := 64.

(** Buttons: [1 << iota]. *)
Definition Buttons := Z.
Definition ButtonPrimary : Buttons := 1.
Definition ButtonSecondary : Buttons := 2.
Definition ButtonTertiary : Buttons := 4.

Definition Rect (size : Rectangle) : AreaOp := {| kind := areaRect; rect := size |}.

Definition Ellipse (size : Rectangle) : AreaOp := {| kind := areaEllipse; rect := size |}.

(** [b&buttons == buttons] *)
Definition Contain (b buttons : Buttons) : bool := Z.land b buttons =? buttons.

Section Encoding.

(** The opcodes and record lengths are constants of internal/ops, which is
    not among the source files: they are parameters of the encoding. *)
Variables TypeArea TypeCursor TypePointerInput : Z.
Variables TypeAreaLen TypeCursorLen TypePointerInputLen : nat.

Definition AreaOp_add (a : AreaOp) (push : bool) : enc unit :=
  fun o =>
    let '(data, o1) := Write o TypeAreaLen in
    (run set_byte data 0 (byte_of TypeArea);
     run set_byte data 1 (byte_of (areaKind_val (kind a)));
     do d2 <- slice_from data 2;
     run PutUint32 d2 (uint32 (X (Min (rect a))));
     do d6 <- slice_from data 6;
     run PutUint32 d6 (uint32 (Y (Min (rect a))));
     do d10 <- slice_from data 10;
     run PutUint32 d10 (uint32 (X (Max (rect a))));
     do d14 <- slice_from data 14;
     PutUint32 d14 (uint32 (Y (Max (rect a))))) o1.

Definition CursorNameOp_Add (op : CursorNameOp) : enc unit :=
  fun o =>
    let '(data, o1) := Write1 o TypeCursorLen (RefCursor (Name op)) in
    set_byte data 0 (byte_of TypeCursor) o1.

Definition InputOp_Add (op : InputOp) : enc unit :=
  fun o =>
    match Tag op with
    | None => Panic TagMustBeNonNil
    | Some tag =>
      let b := ScrollBounds op in
      if (X (Min b) >? 0) || (X (Max b) <? 0) || (Y (Min b) >? 0) || (Y (Max b) <? 0)
      then Panic (InvalidScrollRange b)
      else
        let '(data, o1) := Write1 o TypePointerInputLen (RefTag tag) in
        (run set_byte data 0 (byte_of TypePointerInput);
         run (if Grab op then set_byte data 1 1 else ret tt);
         run set_byte data 2 (byte_of (Types op));
         do d3 <- slice_from data 3;
         run PutUint32 d3 (uint32 (X (Min (ScrollBounds op))));
         do d7 <- slice_from data 7;
         run PutUint32 d7 (uint32 (Y (Min (ScrollBounds op))));
         do d11 <- slice_from data 11;
         run PutUint32 d11 (uint32 (X (Max (ScrollBounds op))));
         do d15 <- slice_from data 15;
         PutUint32 d15 (uint32 (Y (Max (ScrollBounds op))))) o1
    end.

(** The record [AreaOp.add] leaves in the buffer when the declared length
    is [18 + k]: opcode, kind, the four coordinates, and [k] bytes that stay
    as [Write] made them. *)
Definition area_record (a : AreaOp) (k : nat) : list Z :=
  [byte_of TypeArea; byte_of (areaKind_val (kind a))]
  ++ le32 (uint32 (X (Min (rect a)))) ++ le32 (uint32 (Y (Min (rect a))))
  ++ le32 (uint32 (X (Max (rect a)))) ++ le32 (uint32 (Y (Max (rect a))))
  ++ replicate k 0.

(** The record [InputOp.Add] leaves in the buffer when the declared length
    is [19 + k]. *)
Definition input_record (op : InputOp) (k : nat) : list Z :=
  [byte_of TypePointerInput; if Grab op then 1 else 0; byte_of (Types op)]
  ++ le32 (uint32 (X (Min (ScrollBounds op)))) ++ le32 (uint32 (Y (Min (ScrollBounds op))))
  ++ le32 (uint32 (X (Max (ScrollBounds op)))) ++ le32 (uint32 (Y (Max (ScrollBounds op))))
  ++ replicate k 0.

End Encoding.

(** A scroll range that contains zero on both axes. *)
Definition valid_bounds (b : Rectangle) : Prop :=
  X (Min b) <= 0 <= X (Max b) /\ Y (Min b) <= 0 <= Y (Max b).

End pointer.

(** ** Package headless *)

Module headless.

Import image.

(** *** Values exchanged with the backend *)

(** Error values: those a backend reports, and those made by [errors.New],
    which are equal to no other error. *)
Inductive err :=
| BackendError (code : nat)
| ErrorsNew (msg : string).

Definition error := option err.

(** Backend objects are handles; an interface holding one is an [option]. *)
Definition handle := nat.
Definition context := option handle.
Definition Device := option handle.
Definition GPU := option handle.
Definition Texture := option handle.
Definition API := nat.

Bind Scope nat_scope with handle API.

Inductive TextureFormat := TextureFormatSRGBA.
Inductive TextureFilter := FilterNearest.
Inductive BufferBinding := BufferBindingFramebuffer.

Record NRGBA := { R : Z; G : Z; B : Z; A : Z }.

(** [color.NRGBA{}] *)
Definition NRGBA_zero : NRGBA := {| R := 0; G := 0; B := 0; A := 0 |}.

Record RGBA := { Pix : list Z; Stride : Z; Rect : Rectangle }.

(** *** The backend, seen through its interface

    Every call to the context, the driver or the renderer is logged.  What a
    call answers may depend on all calls made before it. *)

Inductive event :=
| CallNewContext (i : nat)
| CallAPI (c : handle)
| CallMakeCurrent (c : handle)
| CallReleaseCurrent (c : handle)
| CallContextRelease (c : handle)
| CallNewDevice (api : API)
| CallNewTexture (d : handle) (format : TextureFormat) (width height : Z)
                 (minFilter magFilter : TextureFilter) (binding : BufferBinding)
| CallGpuNew (api : API)
| CallTextureRelease (t : handle)
| CallDeviceRelease (d : handle)
| CallGpuRelease (g : handle)
| CallClear (g : handle) (col : NRGBA)
| CallFrame (g : handle) (frame : ops.Ops) (target : Texture) (viewport : Point)
| CallDownloadImage (d : Device) (t : Texture) (r : Rectangle).

Definition trace := list event.

Definition strategy := trace -> context * error.

(** The answers of the backend.  [driver.DownloadImage] is a function of
    the driver package that [Window.Screenshot] hands [w.dev] and
    [w.fboTex] unchecked: its answer may be a panic. *)
Record Backend := {
  newContextPrimary : option strategy;
  newContextFallback : option strategy;
  ctx_API : trace -> handle -> API;
  ctx_MakeCurrent : trace -> handle -> error;
  driver_NewDevice : trace -> API -> Device * error;
  dev_NewTexture : trace -> handle -> Z -> Z -> Texture * error;
  gpu_New : trace -> API -> GPU * error;
  gpu_Frame : trace -> handle -> ops.Ops -> Texture -> Point -> error;
  driver_DownloadImage : trace -> Device -> Texture -> Rectangle -> result (option RGBA * error)
}.

Definition io (A : Type) : Type := M trace A.

(** A logged call: the answer is computed from the calls made so far. *)
Definition call {A} (ev : event) (answer : trace -> A) : io A :=
  fun t => Done (answer t, t ++ [ev]).

(** A logged call to a function of the driver package that is handed its
    arguments as they are, nil or not, and may panic on them: the call is
    logged when it returns. *)
Definition call_driver {A} (ev : event) (answer : trace -> result A) : io A :=
  fun t => match answer t with
           | Done a => Done (a, t ++ [ev])
           | Panic p => Panic p
           end.

(** A method call through an interface value: nil panics. *)
Definition method {A} (recv : option handle) (k : handle -> io A) : io A :=
  match recv with
  | Some h => k h
  | None => raise NilDereference
  end.

(** *** The window *)

Record Window := {
  size : Point;
  ctx : context;
  dev : Device;
  gpu : GPU;
  fboTex : Texture
}.

Definition noBackends : err := ErrorsNew "x11: no available GPU backends".

(** The loop of [newContext] over [funcs], from position [i] on, with the
    variable [firstErr]. *)
Fixpoint newContext_loop (i : nat) (funcs : list (option strategy))
    (firstErr : error) : io (context * error) :=
  match funcs with
  | [] =>
      match firstErr with
      | Some e => ret (None, Some e)
      | None => ret (None, Some noBackends)
      end
  | None :: rest => newContext_loop (S i) rest firstErr
  | Some f :: rest =>
      do '(c, err) <- call (CallNewContext i) f;
      match err with
      | Some e =>
          newContext_loop (S i) rest
            (match firstErr with None => Some e | Some _ => firstErr end)
      | None => ret (c, None)
      end
  end.

Definition newContext (be : Backend) : io (context * error) :=
  newContext_loop 0 [newContextPrimary be; newContextFallback be] None.

(** [contextDo] runs [f] with the context current.  The goroutine and the
    channel are a synchronous rendezvous; [S] is the state of the variables
    the closure [f] captures and assigns. *)
Definition contextDo {S} (be : Backend) (ctx : context)
    (f : S -> io (S * error)) (s : S) : io (S * error) :=
  method ctx (fun c =>
    do err <- call (CallMakeCurrent c) (fun t => ctx_MakeCurrent be t c);
    match err with
    | Some e => ret (s, Some e)
    | None =>
        do '(s', err) <- f s;
        run call (CallReleaseCurrent c) (fun _ => tt);
        ret (s', err)
    end).

(** [NewWindow]: the closure run by [contextDo] assigns the fields of [w]. *)
Definition NewWindow (be : Backend) (width height : Z) : io (option Window * error) :=
  do '(ctx, err) <- newContext be;
  match err with
  | Some e => ret (None, Some e)
  | None =>
    let w := {| size := {| X := width; Y := height |}; ctx := ctx;
                dev := None; gpu := None; fboTex := None |} in
    do '(w, err) <- contextDo be ctx (fun w =>
      do api <- method ctx (fun c => call (CallAPI c) (fun t => ctx_API be t c));
      do '(dev, err) <- call (CallNewDevice api) (fun t => driver_NewDevice be t api);
      match err with
      | Some e => ret (w, Some e)
      | None =>
        do '(fboTex, err) <- method dev (fun d =>
          call (CallNewTexture d TextureFormatSRGBA width height
                  FilterNearest FilterNearest BufferBindingFramebuffer)
               (fun t => dev_NewTexture be t d width height));
        match err with
        | Some _ => ret (w, None)   (* [return nil]: the device stays, no error *)
        | None =>
          do '(gp, err) <- call (CallGpuNew api) (fun t => gpu_New be t api);
          match err with
          | Some e =>
              run method fboTex (fun x => call (CallTextureRelease x) (fun _ => tt));
              run method dev (fun d => call (CallDeviceRelease d) (fun _ => tt));
              ret (w, Some e)
          | None =>
              ret ({| size := size w; ctx := headless.ctx w;
                      dev := dev; gpu := gp; fboTex := fboTex |}, None)
          end
        end
      end) w;
    match err with
    | Some e =>
        run method ctx (fun c => call (CallContextRelease c) (fun _ => tt));
        ret (None, Some e)
    | None => ret (Some w, None)
    end
  end.

(** [Window.Release]: [contextDo] is called on [w.ctx] before any nil check. *)
Definition Release (be : Backend) (w : Window) : io Window :=
  do '(w, _) <- contextDo be (ctx w) (fun w =>
    do w <- match fboTex w with
            | Some x =>
                run call (CallTextureRelease x) (fun _ => tt);
                ret {| size := size w; ctx := ctx w; dev := dev w;
                       gpu := gpu w; fboTex := None |}
            | None => ret w
            end;
    do w <- match gpu w with
            | Some g =>
                run call (CallGpuRelease g) (fun _ => tt);
                ret {| size := size w; ctx := ctx w; dev := dev w;
                       gpu := None; fboTex := fboTex w |}
            | None => ret w
            end;
    do w <- match dev w with
            | Some d =>
                run call (CallDeviceRelease d) (fun _ => tt);
                ret {| size := size w; ctx := ctx w; dev := None;
                       gpu := gpu w; fboTex := fboTex w |}
            | None => ret w
            end;
    ret (w, None)) w;
  match ctx w with
  | Some c =>
      run call (CallContextRelease c) (fun _ => tt);
      ret {| size := size w; ctx := None; dev := dev w;
             gpu := gpu w; fboTex := fboTex w |}
  | None => ret w
  end.

(** [Window.Frame] *)
Definition Frame (be : Backend) (w : Window) (frame : ops.Ops) : io (Window * error) :=
  contextDo be (ctx w) (fun w =>
    run method (gpu w) (fun g => call (CallClear g NRGBA_zero) (fun _ => tt));
    do err <- method (gpu w) (fun g =>
      call (CallFrame g frame (fboTex w) (size w))
           (fun t => gpu_Frame be t g frame (fboTex w) (size w)));
    ret (w, err)) w.

(** The region [image.Rectangle{Max: w.size}]. *)
Definition full_region (w : Window) : Rectangle := {| Min := ZP; Max := size w |}.

(** [Window.Screenshot]: the closure assigns the captured variable [img]. *)
Definition Screenshot (be : Backend) (w : Window) : io (Window * (option RGBA * error)) :=
  do '((w, img), err) <- contextDo be (ctx w) (fun '(w, _) =>
    do '(img, err) <- call_driver (CallDownloadImage (dev w) (fboTex w) (full_region w))
                           (fun t => driver_DownloadImage be t (dev w) (fboTex w) (full_region w));
    ret ((w, img), err)) (w, None);
  match err with
  | Some e => ret (w, (None, Some e))
  | None => ret (w, (img, None))
  end.

(** *** Predicates on the call log *)

(** Calls that release an owned resource. *)
Definition is_release (ev : event) : bool :=
  match ev with
  | CallContextRelease _ | CallTextureRelease _
  | CallDeviceRelease _ | CallGpuRelease _ => true
  | _ => false
  end.

(** The reading of section 4.6 that leaves the activation of the context
    out: whatever else is called, [Frame] clears, then submits, and returns
    the error of the submission. *)
Definition Frame_clears_then_submits (be : Backend) (w : Window)
    (frame : ops.Ops) (t : trace) : Prop :=
  exists (g : handle) (before after : list event),
    let t1 := t ++ before ++ [CallClear g NRGBA_zero] in
    Frame be w frame t =
    Done ((w, gpu_Frame be t1 g frame (fboTex w) (size w)),
          t1 ++ [CallFrame g frame (fboTex w) (size w)] ++ after).

(** Likewise for [Screenshot]: it reads the full region back and fails
    exactly when that readback fails. *)
Definition Screenshot_reads_back (be : Backend) (w : Window) (t : trace) : Prop :=
  exists (before after : list event) (img : option RGBA) (err : error),
    let t1 := t ++ before in
    driver_DownloadImage be t1 (dev w) (fboTex w) (full_region w) = Done (img, err)
    /\ Screenshot be w t =
       Done ((w, match err with
                 | Some e => (None, Some e)
                 | None => (img, None)
                 end),
             t1 ++ [CallDownloadImage (dev w) (fboTex w) (full_region w)] ++ after).

(** *** Backend selection as the specification words it

    The configured strategies are tried in order until one succeeds;
    [attempts] lists the answers of those that were tried. *)
Fixpoint attempts (i : nat) (funcs : list (option strategy)) (t : trace)
    : list (context * error) * trace :=
  match funcs with
  | [] => ([], t)
  | None :: rest => attempts (S i) rest t
  | Some f :: rest =>
      let r := f t in
      let t' := t ++ [CallNewContext i] in
      match snd r with
      | None => ([r], t')
      | Some _ => let '(rs, t'') := attempts (S i) rest t' in (r :: rs, t'')
      end
  end.

Definition succeeded (r : context * error) : bool :=
  match snd r with None => true | Some _ => false end.

(** The first success; else the first failure; else no backend at all. *)
Definition selected (rs : list (context * error)) : context * error :=
  match find succeeded rs with
  | Some (c, _) => (c, None)
  | None =>
      match rs with
      | (_, Some e) :: _ => (None, Some e)
      | _ => (None, Some noBackends)
      end
  end.

End headless.


(** ** Sample inputs *)

Module samples.

Import image ops pointer.

Definition empty_Ops : Ops := {| data := []; refs := [] |}.

(** Sample values for the constants of internal/ops. *)
Definition sample_TypeArea : Z := 30.
Definition sample_TypeCursor : Z := 34.
Definition sample_TypePointerInput : Z := 31.

Definition sample_input : InputOp :=
  {| Tag := Some 1%nat; Grab := true; Types := Z.lor Press Scroll;
     ScrollBounds := {| Min := {| X := -10; Y := 0 |}; Max := {| X := 300; Y := 20 |} |} |}.

Definition sample_bad_input : InputOp :=
  {| Tag := Some 1%nat; Grab := false; Types := Scroll;
     ScrollBounds := {| Min := {| X := 1; Y := 0 |}; Max := {| X := 5; Y := 5 |} |} |}.

Definition sample_area : AreaOp :=
  Rect {| Min := {| X := -1; Y := 2 |}; Max := {| X := 258; Y := 65536 |} |}.

End samples.

(** ** Sample backends and windows *)

Module headless_samples.

Import image headless.

Definition sample_bitmap (r : Rectangle) : RGBA :=
  {| Pix := replicate 64 0; Stride := 16; Rect := r |}.

(** A readback that dereferences the texture: it panics on a nil texture
    and answers [ok] otherwise. *)
Definition sample_readback (ok : Rectangle -> option RGBA * error)
    (t : trace) (d : Device) (tex : Texture) (r : Rectangle)
    : result (option RGBA * error) :=
  match tex with
  | None => Panic NilDereference
  | Some _ => Done (ok r)
  end.

(** Every call succeeds: context 1, device 2, texture 3, renderer 4. *)
Definition working_backend : Backend :=
  {| newContextPrimary := Some (fun _ => (Some 1%nat, None));
     newContextFallback := None;
     ctx_API := fun _ _ => 0%nat;
     ctx_MakeCurrent := fun _ _ => None;
     driver_NewDevice := fun _ _ => (Some 2%nat, None);
     dev_NewTexture := fun _ _ _ _ => (Some 3%nat, None);
     gpu_New := fun _ _ => (Some 4%nat, None);
     gpu_Frame := fun _ _ _ _ _ => None;
     driver_DownloadImage := sample_readback (fun r => (Some (sample_bitmap r), None)) |}.

(** As [working_backend], but texture creation fails with error 7. *)
Definition texture_fails_backend : Backend :=
  {| newContextPrimary := Some (fun _ => (Some 1%nat, None));
     newContextFallback := None;
     ctx_API := fun _ _ => 0%nat;
     ctx_MakeCurrent := fun _ _ => None;
     driver_NewDevice := fun _ _ => (Some 2%nat, None);
     dev_NewTexture := fun _ _ _ _ => (None, Some (BackendError 7));
     gpu_New := fun _ _ => (Some 4%nat, None);
     gpu_Frame := fun _ _ _ _ _ => None;
     driver_DownloadImage := sample_readback (fun r => (Some (sample_bitmap r), None)) |}.

(** As [working_backend], but renderer creation fails with error 8. *)
Definition renderer_fails_backend : Backend :=
  {| newContextPrimary := Some (fun _ => (Some 1%nat, None));
     newContextFallback := None;
     ctx_API := fun _ _ => 0%nat;
     ctx_MakeCurrent := fun _ _ => None;
     driver_NewDevice := fun _ _ => (Some 2%nat, None);
     dev_NewTexture := fun _ _ _ _ => (Some 3%nat, None);
     gpu_New := fun _ _ => (None, Some (BackendError 8));
     gpu_Frame := fun _ _ _ _ _ => None;
     driver_DownloadImage := sample_readback (fun r => (Some (sample_bitmap r), None)) |}.

(** The context cannot be made current (error 9); submission and readback
    would succeed. *)
Definition no_current_backend : Backend :=
  {| newContextPrimary := Some (fun _ => (Some 1%nat, None));
     newContextFallback := None;
     ctx_API := fun _ _ => 0%nat;
     ctx_MakeCurrent := fun _ _ => Some (BackendError 9);
     driver_NewDevice := fun _ _ => (Some 2%nat, None);
     dev_NewTexture := fun _ _ _ _ => (Some 3%nat, None);
     gpu_New := fun _ _ => (Some 4%nat, None);
     gpu_Frame := fun _ _ _ _ _ => None;
     driver_DownloadImage := sample_readback (fun r => (Some (sample_bitmap r), None)) |}.

(** Submission fails with error 5 and readback with error 6. *)
Definition failing_render_backend : Backend :=
  {| newContextPrimary := Some (fun _ => (Some 1%nat, None));
     newContextFallback := None;
     ctx_API := fun _ _ => 0%nat;
     ctx_MakeCurrent := fun _ _ => None;
     driver_NewDevice := fun _ _ => (Some 2%nat, None);
     dev_NewTexture := fun _ _ _ _ => (Some 3%nat, None);
     gpu_New := fun _ _ => (Some 4%nat, None);
     gpu_Frame := fun _ _ _ _ _ => Some (BackendError 5);
     driver_DownloadImage := sample_readback (fun _ => (None, Some (BackendError 6))) |}.

(** The primary strategy fails with error 11, the fallback yields context 2. *)
Definition fallback_backend : Backend :=
  {| newContextPrimary := Some (fun _ => (None, Some (BackendError 11)));
     newContextFallback := Some (fun _ => (Some 2%nat, None));
     ctx_API := fun _ _ => 0%nat;
     ctx_MakeCurrent := fun _ _ => None;
     driver_NewDevice := fun _ _ => (Some 2%nat, None);
     dev_NewTexture := fun _ _ _ _ => (Some 3%nat, None);
     gpu_New := fun _ _ => (Some 4%nat, None);
     gpu_Frame := fun _ _ _ _ _ => None;
     driver_DownloadImage := sample_readback (fun r => (Some (sample_bitmap r), None)) |}.

(** The window [NewWindow(4, 4)] builds on [working_backend]. *)
Definition sample_window : Window :=
  {| size := {| X := 4; Y := 4 |}; ctx := Some 1%nat; dev := Some 2%nat;
     gpu := Some 4%nat; fboTex := Some 3%nat |}.

(** The calls [NewWindow(4, 4)] makes on [working_backend]. *)
Definition sample_construction : trace :=
  [CallNewContext 0; CallMakeCurrent 1; CallAPI 1; CallNewDevice 0;
   CallNewTexture 2 TextureFormatSRGBA 4 4 FilterNearest FilterNearest
     BufferBindingFramebuffer;
   CallGpuNew 0; CallReleaseCurrent 1].

End headless_samples.

(** ** Package pointer: the String methods *)

Module pointer_strings.

Import pointer.

Local Open Scope string_scope.

(** A call that returns a value or panics with a message, as
    [panic("unknown Type")] does. *)
Inductive returned (A : Type) :=
| Returns (a : A)
| PanicsWith (msg : string).

Arguments Returns {A} a.
Arguments PanicsWith {A} msg.

(** [strings.Join(elems, sep)] *)
Fixpoint Join (elems : list string) (sep : string) : string :=
  match elems with
  | [] => ""
  | [x] => x
  | x :: rest => x ++ sep ++ Join rest sep
  end.

(** Priorities and sources: [iota]. *)
Definition Shared : Z := 0.
Definition Foremost : Z := 1.
Definition Grabbed : Z := 2.

Definition Mouse : Z := 0.
Definition Touch : Z := 1.

(** Cursor names. *)
Definition CursorDefault : string := "".
Definition CursorText : string := "text".
Definition CursorPointer : string := "pointer".
Definition CursorCrossHair : string := "crosshair".
Definition CursorColResize : string := "col-resize".
Definition CursorRowResize : string := "row-resize".
Definition CursorGrab : string := "grab".
Definition CursorNone : string := "none".

(** [Type.String]: a switch over the eight event types. *)
Definition Type_String (t : Z) : returned string :=
  if (t =? Press)%Z then Returns "Press"
  else if (t =? Release)%Z then Returns "Release"
  else if (t =? Cancel)%Z then Returns "Cancel"
  else if (t =? Move)%Z then Returns "Move"
  else if (t =? Drag)%Z then Returns "Drag"
  else if (t =? Enter)%Z then Returns "Enter"
  else if (t =? Leave)%Z then Returns "Leave"
  else if (t =? Scroll)%Z then Returns "Scroll"
  else PanicsWith "unknown Type".

(** [Priority.String] *)
Definition Priority_String (p : Z) : returned string :=
  if (p =? Shared)%Z then Returns "Shared"
  else if (p =? Foremost)%Z then Returns "Foremost"
  else if (p =? Grabbed)%Z then Returns "Grabbed"
  else PanicsWith "unknown priority".

(** [Source.String] *)
Definition Source_String (s : Z) : returned string :=
  if (s =? Mouse)%Z then Returns "Mouse"
  else if (s =? Touch)%Z then Returns "Touch"
  else PanicsWith "unknown source".

(** [Buttons.String]: the names of the contained buttons, joined. *)
Definition Buttons_String (b : Buttons) : string :=
  let strs : list string := [] in
  let strs := if Contain b ButtonPrimary then app strs ["ButtonPrimary"] else strs in
  let strs := if Contain b ButtonSecondary then app strs ["ButtonSecondary"] else strs in
  let strs := if Contain b ButtonTertiary then app strs ["ButtonTertiary"] else strs in
  Join strs "|".

(** [CursorName.String] *)
Definition CursorName_String (c : string) : string :=
  if String.eqb c CursorDefault then "default" else c.

(** The event types, in the order of their declaration. *)
Definition all_types : list Z :=
  [Cancel; Press; Release; Move; Drag; Enter; Leave; Scroll].

End pointer_strings.

(** ** Vocabulary for statements about the encoders *)

Module encoding_props.

Import image ops pointer.

(** [m] appends the bytes [rec] to the buffer and the values [rs] to the
    reference table, whatever the buffer holds. *)
Definition appends (m : enc unit) (rec : list Z) (rs : list Ref) : Prop :=
  forall o : Ops,
    m o = Done (tt, {| data := data o ++ rec; refs := refs o ++ rs |}).

(** The values of a Go [int32]. *)
Definition int32_range (x : Z) : Prop := - 2 ^ 31 <= x < 2 ^ 31.

(** Two integers with the same low 32 bits. *)
Definition same_uint32 (x y : Z) : Prop := x mod 2 ^ 32 = y mod 2 ^ 32.

(** Two rectangles whose coordinates have the same low 32 bits. *)
Definition same_uint32_rect (r r' : Rectangle) : Prop :=
  same_uint32 (X (Min r)) (X (Min r')) /\ same_uint32 (Y (Min r)) (Y (Min r'))
  /\ same_uint32 (X (Max r)) (X (Max r')) /\ same_uint32 (Y (Max r)) (Y (Max r')).

Definition int32_rect (r : Rectangle) : Prop :=
  int32_range (X (Min r)) /\ int32_range (Y (Min r))
  /\ int32_range (X (Max r)) /\ int32_range (Y (Max r)).

End encoding_props.

(** ** Vocabulary for statements about the window life cycle *)

Module lifecycle_props.

Import image headless.

(** The release calls [Window.Release] makes for the fields that are set:
    texture, renderer, device, in this order. *)
Definition release_calls (w : Window) : list event :=
  (match fboTex w with Some x => [CallTextureRelease x] | None => [] end)
  ++ (match gpu w with Some g => [CallGpuRelease g] | None => [] end)
  ++ (match dev w with Some d => [CallDeviceRelease d] | None => [] end).

(** The window with every resource field nil. *)
Definition emptied (w : Window) : Window :=
  {| size := size w; ctx := None; dev := None; gpu := None; fboTex := None |}.

(** The window with only the context field nil. *)
Definition without_ctx (w : Window) : Window :=
  {| size := size w; ctx := None; dev := dev w; gpu := gpu w; fboTex := fboTex w |}.

(** The position of a [CallNewContext] in the list of strategies. *)
Definition strategy_calls (idxs : list nat) : list event := map CallNewContext idxs.

End lifecycle_props.

(** ** More sample backends *)

Module lifecycle_samples.

Import image headless headless_samples.

(** No strategy is configured. *)
Definition unconfigured_backend : Backend :=
  {| newContextPrimary := None;
     newContextFallback := None;
     ctx_API := fun _ _ => 0%nat;
     ctx_MakeCurrent := fun _ _ => None;
     driver_NewDevice := fun _ _ => (Some 2%nat, None);
     dev_NewTexture := fun _ _ _ _ => (Some 3%nat, None);
     gpu_New := fun _ _ => (Some 4%nat, None);
     gpu_Frame := fun _ _ _ _ _ => None;
     driver_DownloadImage := sample_readback (fun r => (Some (sample_bitmap r), None)) |}.

(** As [working_backend], but device creation fails with error 12. *)
Definition device_fails_backend : Backend :=
  {| newContextPrimary := Some (fun _ => (Some 1%nat, None));
     newContextFallback := None;
     ctx_API := fun _ _ => 0%nat;
     ctx_MakeCurrent := fun _ _ => None;
     driver_NewDevice := fun _ _ => (None, Some (BackendError 12));
     dev_NewTexture := fun _ _ _ _ => (Some 3%nat, None);
     gpu_New := fun _ _ => (Some 4%nat, None);
     gpu_Frame := fun _ _ _ _ _ => None;
     driver_DownloadImage := sample_readback (fun r => (Some (sample_bitmap r), None)) |}.

(** The window [NewWindow] hands out after a failed texture creation. *)
Definition bare_window : Window :=
  {| size := {| X := 4; Y := 4 |}; ctx := Some 1%nat; dev := None;
     gpu := None; fboTex := None |}.

(** A window after [Release]. *)
Definition released_window : Window :=
  {| size := {| X := 4; Y := 4 |}; ctx := None; dev := None;
     gpu := None; fboTex := None |}.

End lifecycle_samples.

(** * Properties of package pointer *)

Module pointer_facts.

Import image ops pointer samples.

(** ** Little-endian fields *)

Lemma le32_value (v : Z) : 0 <= v < 2 ^ 32 -> le_value (le32 v) = v.
Proof.
  intros Hv. unfold le32, le_value, byte_of; cbn [fold_right].
  rewrite !Z.shiftr_div_pow2 by lia.
  change (2 ^ 8) with 256. change (2 ^ 16) with (256 * 256).
  change (2 ^ 24) with (256 * (256 * 256)).
  rewrite <- !Z.div_div by lia.
  pose proof (Z.div_mod v 256 ltac:(lia)) as H0.
  pose proof (Z.div_mod (v / 256) 256 ltac:(lia)) as H1.
  pose proof (Z.div_mod (v / 256 / 256) 256 ltac:(lia)) as H2.
  assert (H3 : 0 <= v / 256 / 256 / 256 < 256).
  { split.
    - repeat apply Z.div_pos; lia.
    - repeat (apply Z.div_lt_upper_bound; [lia|]).
      change (2 ^ 32) with 4294967296 in Hv. lia. }
  rewrite (Z.mod_small (v / 256 / 256 / 256) 256) by lia.
  lia.
Qed.

Lemma le32_uint32 (x : Z) : le_value (le32 (uint32 x)) = x mod 2 ^ 32.
Proof. apply le32_value. unfold uint32. apply Z.mod_pos_bound. lia. Qed.

Lemma le32_bytes (v : Z) : Forall is_byte (le32 v).
Proof.
  unfold le32, byte_of, is_byte.
  repeat constructor; apply Z.mod_pos_bound; lia.
Qed.

Lemma replicate_zero_bytes (k : nat) : Forall is_byte (replicate k 0).
Proof. induction k; cbn; constructor; [unfold is_byte; lia | assumption]. Qed.

Lemma byte_of_is_byte (x : Z) : is_byte (byte_of x).
Proof. unfold is_byte, byte_of. apply Z.mod_pos_bound. lia. Qed.

(** ** The records written by the encoders *)

Section Encoding.

Variables TypeArea TypeCursor TypePointerInput : Z.
Variables TypeAreaLen TypeCursorLen TypePointerInputLen : nat.

Lemma bounds_check (b : Rectangle) :
  (X (Min b) >? 0) || (X (Max b) <? 0) || (Y (Min b) >? 0) || (Y (Max b) <? 0) = false
  <-> valid_bounds b.
Proof.
  unfold valid_bounds. rewrite !orb_false_iff, !Z.gtb_ltb, !Z.ltb_ge. lia.
Qed.

Section Writes.

Local Opaque byte_of uint32 Z.shiftr.

Lemma insert_tail (pre rec : list Z) (i : nat) (x : Z) :
  <[(length pre + i)%nat := x]> (pre ++ rec) = pre ++ <[i := x]> rec.
Proof. apply insert_app_r. Qed.

Ltac run_writes :=
  unfold Write, Write1, PutUint32, slice_from, set_byte, bind, ret; cbn;
  repeat (rewrite <- ?Nat.add_assoc; rewrite insert_tail; cbn).

Lemma AreaOp_add_record (a : AreaOp) (push : bool) (o : Ops) (k : nat) :
  TypeAreaLen = (18 + k)%nat ->
  AreaOp_add TypeArea TypeAreaLen a push o =
  Done (tt, {| data := data o ++ area_record TypeArea a k; refs := refs o |}).
Proof.
  intros ->. unfold AreaOp_add. run_writes. reflexivity.
Qed.

Lemma InputOp_Add_record (op : InputOp) (o : Ops) (tag : nat) (k : nat) :
  TypePointerInputLen = (19 + k)%nat ->
  Tag op = Some tag ->
  valid_bounds (ScrollBounds op) ->
  InputOp_Add TypePointerInput TypePointerInputLen op o =
  Done (tt, {| data := data o ++ input_record TypePointerInput op k;
               refs := refs o ++ [RefTag tag] |}).
Proof.
  intros -> Ht Hb. apply bounds_check in Hb.
  unfold InputOp_Add. rewrite Ht. cbv zeta. rewrite Hb.
  unfold input_record. destruct (Grab op); run_writes; reflexivity.
Qed.

Lemma CursorNameOp_Add_record (op : CursorNameOp) (o : Ops) (k : nat) :
  TypeCursorLen = (1 + k)%nat ->
  CursorNameOp_Add TypeCursor TypeCursorLen op o =
  Done (tt, {| data := data o ++ byte_of TypeCursor :: replicate k 0;
               refs := refs o ++ [RefCursor (Name op)] |}).
Proof.
  intros ->. unfold CursorNameOp_Add. run_writes. reflexivity.
Qed.

End Writes.

Lemma InputOp_Add_done_valid (op : InputOp) (o o' : Ops) :
  InputOp_Add TypePointerInput TypePointerInputLen op o = Done (tt, o') ->
  Tag op <> None /\ valid_bounds (ScrollBounds op).
Proof.
  unfold InputOp_Add. destruct (Tag op); [|discriminate]. cbv zeta.
  destruct (_ || _) eqn:E; [discriminate|].
  intros _. split; [discriminate | apply bounds_check, E].
Qed.

End Encoding.

(** ** Buttons *)

(** C10.  [b.Contain(buttons)] holds exactly when every bit set in [buttons]
    is also set in [b]; in particular every set contains the empty set and
    contains itself. *)
Theorem Contain_iff_all_bits (b buttons : Buttons) :
  (Contain b buttons = true <->
   (forall i, Z.testbit buttons i = true -> Z.testbit b i = true))
  /\ (Contain b buttons = true <-> Z.land b buttons = buttons)
  /\ Contain b 0 = true
  /\ Contain b b = true.
Proof.
  assert (Hiff : forall x y : Z, Contain x y = true <->
                 (forall i, Z.testbit y i = true -> Z.testbit x i = true)).
  { intros x y. unfold Contain. rewrite Z.eqb_eq. split.
    - intros H i Hi. rewrite <- H in Hi. rewrite Z.land_spec in Hi.
      apply andb_prop in Hi. tauto.
    - intros H. apply Z.bits_inj'. intros n _. rewrite Z.land_spec.
      destruct (Z.testbit y n) eqn:E.
      + rewrite (H n E). reflexivity.
      + apply andb_false_r. }
  split; [apply Hiff|]. split; [apply Z.eqb_eq|]. split.
  - apply Hiff. intros i Hi. rewrite Z.bits_0 in Hi. discriminate.
  - apply Hiff. auto.
Qed.

(** ** Validation in [InputOp.Add] *)

(** C4.  With a record length that holds the nineteen bytes written,
    [InputOp.Add] panics exactly when the tag is nil or the scroll bounds miss
    zero on some axis; bounds [(1,0)-(5,5)] panic, and a non-nil tag with
    bounds around the origin is accepted. *)
Theorem InputOp_Add_panics_iff (TypePointerInput : Z) (TypePointerInputLen : nat) :
  (19 <= TypePointerInputLen)%nat ->
  (forall (op : InputOp) (o : Ops),
     (exists p, InputOp_Add TypePointerInput TypePointerInputLen op o = Panic p) <->
     (Tag op = None
      \/ X (Min (ScrollBounds op)) > 0 \/ X (Max (ScrollBounds op)) < 0
      \/ Y (Min (ScrollBounds op)) > 0 \/ Y (Max (ScrollBounds op)) < 0))
  /\ (forall (tag : option nat) (grab : bool) (types : Z) (o : Ops),
        exists p,
          InputOp_Add TypePointerInput TypePointerInputLen
            {| Tag := tag; Grab := grab; Types := types;
               ScrollBounds := {| Min := {| X := 1; Y := 0 |};
                                  Max := {| X := 5; Y := 5 |} |} |} o = Panic p)
  /\ (forall (op : InputOp) (o : Ops),
        Tag op <> None ->
        X (Min (ScrollBounds op)) <= 0 <= X (Max (ScrollBounds op)) ->
        Y (Min (ScrollBounds op)) <= 0 <= Y (Max (ScrollBounds op)) ->
        exists o', InputOp_Add TypePointerInput TypePointerInputLen op o = Done (tt, o')).
Proof.
  intros Hlen.
  assert (Hiff : forall op o,
     (exists p, InputOp_Add TypePointerInput TypePointerInputLen op o = Panic p) <->
     (Tag op = None \/ ~ valid_bounds (ScrollBounds op))).
  { intros op o. split.
    - intros [p Hp]. destruct (Tag op) as [tag|] eqn:Ht; [|now left]. right.
      intros Hb.
      rewrite (@InputOp_Add_record TypePointerInput TypePointerInputLen op o tag
                 (TypePointerInputLen - 19)) in Hp by (assumption || lia).
      discriminate.
    - intros [Ht|Hb]; unfold InputOp_Add.
      + rewrite Ht. eauto.
      + destruct (Tag op); [|eauto]. cbv zeta.
        destruct (_ || _) eqn:E; [eauto|].
        apply bounds_check in E. contradiction. }
  split; [|split].
  - intros op o. rewrite Hiff. unfold valid_bounds. split.
    + intros [H|H]; [now left|right]. lia.
    + intros [H|H]; [now left|right]. lia.
  - intros tag grab types o. apply Hiff. destruct tag; [right|now left].
    unfold valid_bounds; cbn. lia.
  - intros op o Ht Hx Hy. destruct (Tag op) as [tag|] eqn:E; [|contradiction].
    eexists.
    apply (@InputOp_Add_record TypePointerInput TypePointerInputLen op o tag
             (TypePointerInputLen - 19)); [lia|assumption|split; assumption].
Qed.

Lemma InputOp_Add_panics_iff_witness :
  (19 <= 19)%nat
  /\ (exists p, InputOp_Add sample_TypePointerInput 19 sample_bad_input empty_Ops = Panic p)
  /\ (exists o', InputOp_Add sample_TypePointerInput 19 sample_input empty_Ops = Done (tt, o')).
Proof.
  split; [lia|].
  destruct (@InputOp_Add_panics_iff sample_TypePointerInput 19 ltac:(lia))
    as (_ & Hbad & Hgood).
  split.
  - apply (Hbad (Some 1%nat) false Scroll empty_Ops).
  - apply (Hgood sample_input empty_Ops); cbn; (discriminate || lia).
Defined.

(** ** Layout of the encoded records *)

Section Layout.

Variables TypeArea TypeCursor TypePointerInput : Z.
Variables TypeAreaLen TypeCursorLen TypePointerInputLen : nat.

Lemma area_record_layout (a : AreaOp) (k : nat) :
  let rec := area_record TypeArea a k in
  length rec = (18 + k)%nat /\ Forall is_byte rec
  /\ rec !! 0%nat = Some (byte_of TypeArea)
  /\ field32 rec 2 = X (Min (rect a)) mod 2 ^ 32
  /\ field32 rec 6 = Y (Min (rect a)) mod 2 ^ 32
  /\ field32 rec 10 = X (Max (rect a)) mod 2 ^ 32
  /\ field32 rec 14 = Y (Max (rect a)) mod 2 ^ 32.
Proof.
  cbv zeta. unfold area_record. repeat split.
  - cbn. rewrite length_replicate. reflexivity.
  - repeat (apply Forall_app; split); try apply le32_bytes.
    + apply Forall_cons; split; [apply byte_of_is_byte|].
      apply Forall_cons; split; [apply byte_of_is_byte | apply Forall_nil_2].
    + apply replicate_zero_bytes.
  - exact (le32_uint32 _).
  - exact (le32_uint32 _).
  - exact (le32_uint32 _).
  - exact (le32_uint32 _).
Qed.

Lemma input_record_layout (op : InputOp) (k : nat) :
  let rec := input_record TypePointerInput op k in
  length rec = (19 + k)%nat /\ Forall is_byte rec
  /\ rec !! 0%nat = Some (byte_of TypePointerInput)
  /\ field32 rec 3 = X (Min (ScrollBounds op)) mod 2 ^ 32
  /\ field32 rec 7 = Y (Min (ScrollBounds op)) mod 2 ^ 32
  /\ field32 rec 11 = X (Max (ScrollBounds op)) mod 2 ^ 32
  /\ field32 rec 15 = Y (Max (ScrollBounds op)) mod 2 ^ 32.
Proof.
  cbv zeta. unfold input_record. repeat split.
  - cbn. rewrite length_replicate. reflexivity.
  - repeat (apply Forall_app; split); try apply le32_bytes.
    + apply Forall_cons; split; [apply byte_of_is_byte|].
      apply Forall_cons; split; [destruct (Grab op); unfold is_byte; lia|].
      apply Forall_cons; split; [apply byte_of_is_byte | apply Forall_nil_2].
    + apply replicate_zero_bytes.
  - exact (le32_uint32 _).
  - exact (le32_uint32 _).
  - exact (le32_uint32 _).
  - exact (le32_uint32 _).
Qed.

End Layout.

(** C6.  With record lengths that hold the bytes written, every area record
    and every input record is the opcode byte followed by a payload of the
    declared length, with the coordinates as 4-byte little-endian integers
    in the order Min.X, Min.Y, Max.X, Max.Y; a handler tag or cursor name
    goes to the reference table, and the record written is the same for
    every tag or name. *)
Theorem encoded_records_fixed_layout
    (TypeArea TypeCursor TypePointerInput : Z)
    (TypeAreaLen TypeCursorLen TypePointerInputLen : nat) :
  (18 <= TypeAreaLen)%nat ->
  (19 <= TypePointerInputLen)%nat ->
  (1 <= TypeCursorLen)%nat ->
  (forall (a : AreaOp) (push : bool), exists rec : list Z,
      (forall o : Ops,
         AreaOp_add TypeArea TypeAreaLen a push o =
         Done (tt, {| data := data o ++ rec; refs := refs o |}))
      /\ length rec = TypeAreaLen /\ Forall is_byte rec
      /\ rec !! 0%nat = Some (byte_of TypeArea)
      /\ field32 rec 2 = X (Min (rect a)) mod 2 ^ 32
      /\ field32 rec 6 = Y (Min (rect a)) mod 2 ^ 32
      /\ field32 rec 10 = X (Max (rect a)) mod 2 ^ 32
      /\ field32 rec 14 = Y (Max (rect a)) mod 2 ^ 32)
  /\ (forall (grab : bool) (types : Z) (b : Rectangle),
        X (Min b) <= 0 <= X (Max b) -> Y (Min b) <= 0 <= Y (Max b) ->
        exists rec : list Z,
          (forall (tag : nat) (o : Ops),
             InputOp_Add TypePointerInput TypePointerInputLen
               {| Tag := Some tag; Grab := grab; Types := types; ScrollBounds := b |} o =
             Done (tt, {| data := data o ++ rec; refs := refs o ++ [RefTag tag] |}))
          /\ length rec = TypePointerInputLen /\ Forall is_byte rec
          /\ rec !! 0%nat = Some (byte_of TypePointerInput)
          /\ field32 rec 3 = X (Min b) mod 2 ^ 32
          /\ field32 rec 7 = Y (Min b) mod 2 ^ 32
          /\ field32 rec 11 = X (Max b) mod 2 ^ 32
          /\ field32 rec 15 = Y (Max b) mod 2 ^ 32)
  /\ (exists rec : list Z,
        (forall (op : CursorNameOp) (o : Ops),
           CursorNameOp_Add TypeCursor TypeCursorLen op o =
           Done (tt, {| data := data o ++ rec; refs := refs o ++ [RefCursor (Name op)] |}))
        /\ length rec = TypeCursorLen
        /\ rec !! 0%nat = Some (byte_of TypeCursor)).
Proof.
  intros Ha Hi Hc. split; [|split].
  - intros a push. exists (area_record TypeArea a (TypeAreaLen - 18)).
    destruct (area_record_layout TypeArea a (TypeAreaLen - 18))
      as (Hl & Hb & H0 & H2 & H6 & H10 & H14).
    split; [|split; [rewrite Hl; lia | tauto]].
    intros o. apply AreaOp_add_record. lia.
  - intros grab types b Hx Hy.
    set (op := {| Tag := None; Grab := grab; Types := types; ScrollBounds := b |}).
    exists (input_record TypePointerInput op (TypePointerInputLen - 19)).
    destruct (input_record_layout TypePointerInput op (TypePointerInputLen - 19))
      as (Hl & Hb & H0 & H3 & H7 & H11 & H15).
    split; [|split; [rewrite Hl; lia | tauto]].
    intros tag o.
    rewrite (@InputOp_Add_record TypePointerInput TypePointerInputLen _ o tag
               (TypePointerInputLen - 19)); [reflexivity | lia | reflexivity |].
    split; assumption.
  - exists (byte_of TypeCursor :: replicate (TypeCursorLen - 1) 0). split; [|split].
    + intros op o. apply CursorNameOp_Add_record. lia.
    + cbn. rewrite length_replicate. lia.
    + reflexivity.
Qed.

Lemma encoded_records_fixed_layout_witness :
  (18 <= 18)%nat /\ (19 <= 19)%nat /\ (1 <= 1)%nat
  /\ (exists rec : list Z,
        (forall o : Ops,
           AreaOp_add sample_TypeArea 18 sample_area true o =
           Done (tt, {| data := data o ++ rec; refs := refs o |}))
        /\ length rec = 18%nat
        /\ field32 rec 2 = (-1) mod 2 ^ 32).
Proof.
  split; [lia|]. split; [lia|]. split; [lia|].
  destruct (@encoded_records_fixed_layout sample_TypeArea sample_TypeCursor
              sample_TypePointerInput 18 1 19 ltac:(lia) ltac:(lia) ltac:(lia))
    as (Harea & _ & _).
  destruct (Harea sample_area true) as (rec & Hrun & Hlen & _ & _ & H2 & _).
  exists rec. split; [exact Hrun|]. split; [exact Hlen | exact H2].
Defined.

End pointer_facts.

(** * Properties of package headless *)

Module headless_facts.

Import image headless headless_samples.

(** Unfolding of the monad and of the logged calls. *)
Ltac run_io :=
  unfold contextDo, method, call, bind, ret, raise in *; cbn in *.

Ltac flatten_log := rewrite <- ?app_assoc; cbn [app].

(** ** Backend selection *)

Lemma find_succeeded_failed (c : context) (e : err) (rs : list (context * error)) :
  find succeeded ((c, Some e) :: rs) = find succeeded rs.
Proof. reflexivity. Qed.

(** The loop of [newContext] computes the selection of section 4.3, for any
    list of strategies and any value of [firstErr] carried into it. *)
Lemma newContext_loop_refines (funcs : list (option strategy)) :
  forall (i : nat) (firstErr : error) (t : trace),
    newContext_loop i funcs firstErr t =
    Done (match firstErr with
          | None => selected (fst (attempts i funcs t))
          | Some e =>
              match find succeeded (fst (attempts i funcs t)) with
              | Some (c, _) => (c, None)
              | None => (None, Some e)
              end
          end, snd (attempts i funcs t)).
Proof.
  induction funcs as [|[f|] rest IH]; intros i firstErr t.
  - destruct firstErr; reflexivity.
  - cbn [newContext_loop attempts]. unfold bind, call.
    destruct (f t) as [c [e|]] eqn:Hf; cbn [snd].
    + rewrite IH. destruct (attempts (S i) rest (t ++ [CallNewContext i])) as [rs t''].
      cbn [fst snd]. unfold selected. rewrite find_succeeded_failed.
      destruct firstErr; reflexivity.
    + destruct firstErr; reflexivity.
  - cbn [newContext_loop attempts]. apply IH.
Qed.

Lemma newContext_refines (be : Backend) (t : trace) :
  let funcs := [newContextPrimary be; newContextFallback be] in
  newContext be t = Done (selected (fst (attempts 0 funcs t)), snd (attempts 0 funcs t)).
Proof. apply (newContext_loop_refines _ 0 None t). Qed.

(** C3.  [newContext] tries the primary strategy, then the fallback,
    skipping one that is nil; the first success is returned and ends the
    search; when every configured strategy fails the error of the earliest
    one is returned; when none is configured the error is the one made by
    [errors.New], which no backend error equals. *)
Theorem newContext_selection (be : Backend) (t : trace) :
  newContext be t =
  match newContextPrimary be, newContextFallback be with
  | None, None => Done ((None, Some noBackends), t)
  | Some p, None =>
      match p t with
      | (c, None) => Done ((c, None), t ++ [CallNewContext 0])
      | (_, Some e) => Done ((None, Some e), t ++ [CallNewContext 0])
      end
  | None, Some f =>
      match f t with
      | (c, None) => Done ((c, None), t ++ [CallNewContext 1])
      | (_, Some e) => Done ((None, Some e), t ++ [CallNewContext 1])
      end
  | Some p, Some f =>
      match p t with
      | (c, None) => Done ((c, None), t ++ [CallNewContext 0])
      | (_, Some e) =>
          match f (t ++ [CallNewContext 0]) with
          | (c, None) => Done ((c, None), t ++ [CallNewContext 0; CallNewContext 1])
          | (_, Some _) => Done ((None, Some e), t ++ [CallNewContext 0; CallNewContext 1])
          end
      end
  end
  /\ (forall code : nat, noBackends <> BackendError code).
Proof.
  split; [|discriminate].
  unfold newContext. cbn [newContext_loop].
  destruct (newContextPrimary be) as [p|], (newContextFallback be) as [f|];
    unfold bind, call, ret.
  - destruct (p t) as [c [e|]]; [|reflexivity].
    destruct (f (t ++ [CallNewContext 0])) as [c' [e'|]]; flatten_log; reflexivity.
  - destruct (p t) as [c [e|]]; reflexivity.
  - destruct (f t) as [c [e|]]; reflexivity.
  - reflexivity.
Qed.

(** The cases of section 8: a failing primary with a working fallback, and
    no strategy at all. *)
Example newContext_falls_back :
  newContext fallback_backend [] =
  Done ((Some 2%nat, None), [CallNewContext 0; CallNewContext 1]).
Proof. reflexivity. Qed.

(** ** Construction *)

(** When texture creation fails, the closure of [NewWindow] returns nil:
    the window is handed out without device, renderer and texture, and
    neither the device nor the context is released. *)
Lemma NewWindow_texture_failure (be : Backend) (width height : Z) (t t1 : trace)
    (c d : handle) (tex : Texture) (e : err) :
  let api := ctx_API be (t1 ++ [CallMakeCurrent c]) c in
  newContext be t = Done ((Some c, None), t1) ->
  ctx_MakeCurrent be t1 c = None ->
  driver_NewDevice be (t1 ++ [CallMakeCurrent c; CallAPI c]) api = (Some d, None) ->
  dev_NewTexture be (t1 ++ [CallMakeCurrent c; CallAPI c; CallNewDevice api])
    d width height = (tex, Some e) ->
  NewWindow be width height t =
  Done ((Some {| size := {| X := width; Y := height |}; ctx := Some c;
                 dev := None; gpu := None; fboTex := None |}, None),
        t1 ++ [CallMakeCurrent c; CallAPI c; CallNewDevice api;
               CallNewTexture d TextureFormatSRGBA width height
                 FilterNearest FilterNearest BufferBindingFramebuffer;
               CallReleaseCurrent c]).
Proof.
  cbv zeta. intros Hctx Hmc Hdev Htex.
  unfold NewWindow. unfold bind at 1. rewrite Hctx.
  run_io. rewrite Hmc. flatten_log. rewrite Hdev. flatten_log.
  rewrite Htex. flatten_log. reflexivity.
Qed.

(** C1.  On a backend whose texture creation fails, [NewWindow(4, 4)]
    returns a window and a nil error; the log shows the device (2) and the
    context (1) created and never released. *)
Theorem NewWindow_texture_failure_returns_window :
  let log :=
    [CallNewContext 0; CallMakeCurrent 1; CallAPI 1; CallNewDevice 0;
     CallNewTexture 2 TextureFormatSRGBA 4 4 FilterNearest FilterNearest
       BufferBindingFramebuffer;
     CallReleaseCurrent 1] in
  NewWindow texture_fails_backend 4 4 [] =
  Done ((Some {| size := {| X := 4; Y := 4 |}; ctx := Some 1%nat;
                 dev := None; gpu := None; fboTex := None |}, None), log)
  /\ existsb is_release log = false.
Proof. split; reflexivity. Qed.

(** The neighbouring path: when renderer creation fails, the texture, the
    device and the context are released and the error is returned. *)
Example NewWindow_renderer_failure_rolls_back :
  NewWindow renderer_fails_backend 4 4 [] =
  Done ((None, Some (BackendError 8)),
        [CallNewContext 0; CallMakeCurrent 1; CallAPI 1; CallNewDevice 0;
         CallNewTexture 2 TextureFormatSRGBA 4 4 FilterNearest FilterNearest
           BufferBindingFramebuffer;
         CallGpuNew 0; CallTextureRelease 3; CallDeviceRelease 2;
         CallReleaseCurrent 1; CallContextRelease 1]).
Proof. reflexivity. Qed.

Example NewWindow_working :
  NewWindow working_backend 4 4 [] = Done ((Some sample_window, None), sample_construction).
Proof. reflexivity. Qed.

(** ** Release *)

(** A [Release] that returns leaves the context field nil. *)
Lemma Release_clears_ctx (be : Backend) (w w' : Window) (t t' : trace) :
  Release be w t = Done (w', t') -> ctx w' = None.
Proof.
  unfold Release. run_io. destruct (ctx w) as [c|] eqn:Hc; [|discriminate].
  destruct (ctx_MakeCurrent be t c).
  - rewrite Hc. intros [= <- _]. reflexivity.
  - destruct (fboTex w), (gpu w), (dev w); cbn; rewrite ?Hc;
      intros [= <- _]; reflexivity.
Qed.

(** [Release] on a window whose context field is nil panics: [contextDo]
    calls [MakeCurrent] through the nil interface. *)
Lemma Release_nil_ctx_panics (be : Backend) (w : Window) (t : trace) :
  ctx w = None -> Release be w t = Panic NilDereference.
Proof. intros H. unfold Release. run_io. rewrite H. reflexivity. Qed.

Lemma Release_again_panics (be : Backend) (w w' : Window) (t t' : trace) :
  Release be w t = Done (w', t') -> Release be w' t' = Panic NilDereference.
Proof. intros H. eapply Release_nil_ctx_panics, Release_clears_ctx, H. Qed.

(** C2.  The first [Release] of a window built by [NewWindow(4, 4)]
    releases texture, renderer, device and context and sets the four fields
    to nil; the second [Release] panics with a nil dereference. *)
Theorem Release_twice_panics :
  Release working_backend sample_window sample_construction =
  Done ({| size := {| X := 4; Y := 4 |}; ctx := None; dev := None;
           gpu := None; fboTex := None |},
        sample_construction
        ++ [CallMakeCurrent 1; CallTextureRelease 3; CallGpuRelease 4;
            CallDeviceRelease 2; CallReleaseCurrent 1; CallContextRelease 1])
  /\ Release working_backend
       {| size := {| X := 4; Y := 4 |}; ctx := None; dev := None;
          gpu := None; fboTex := None |}
       (sample_construction
        ++ [CallMakeCurrent 1; CallTextureRelease 3; CallGpuRelease 4;
            CallDeviceRelease 2; CallReleaseCurrent 1; CallContextRelease 1])
     = Panic NilDereference.
Proof. split; reflexivity. Qed.

(** ** Frame and Screenshot *)

(** What [Frame] does on a window whose context and renderer are set. *)
Lemma Frame_run (be : Backend) (w : Window) (frame : ops.Ops) (t : trace)
    (c g : handle) :
  ctx w = Some c -> gpu w = Some g ->
  Frame be w frame t =
  match ctx_MakeCurrent be t c with
  | Some e => Done ((w, Some e), t ++ [CallMakeCurrent c])
  | None =>
      let t1 := t ++ [CallMakeCurrent c; CallClear g NRGBA_zero] in
      Done ((w, gpu_Frame be t1 g frame (fboTex w) (size w)),
            t1 ++ [CallFrame g frame (fboTex w) (size w); CallReleaseCurrent c])
  end.
Proof.
  intros Hc Hg. unfold Frame. run_io. rewrite Hc.
  destruct (ctx_MakeCurrent be t c); [reflexivity|].
  rewrite Hg. cbn. flatten_log. reflexivity.
Qed.

(** What [Screenshot] does on a window whose context is set. *)
Lemma Screenshot_run (be : Backend) (w : Window) (t : trace) (c : handle) :
  ctx w = Some c ->
  Screenshot be w t =
  match ctx_MakeCurrent be t c with
  | Some e => Done ((w, (None, Some e)), t ++ [CallMakeCurrent c])
  | None =>
      let t1 := t ++ [CallMakeCurrent c] in
      match driver_DownloadImage be t1 (dev w) (fboTex w) (full_region w) with
      | Panic p => Panic p
      | Done (img, err) =>
          Done ((w, match err with
                    | Some e => (None, Some e)
                    | None => (img, None)
                    end),
                t1 ++ [CallDownloadImage (dev w) (fboTex w) (full_region w);
                       CallReleaseCurrent c])
      end
  end.
Proof.
  intros Hc. unfold Screenshot. unfold call_driver. run_io. rewrite Hc.
  destruct (ctx_MakeCurrent be t c); [reflexivity|]. cbn.
  destruct (driver_DownloadImage _ _ _ _ _) as [[img [e|]]|p];
    flatten_log; reflexivity.
Qed.

(** C7, as stated, fails: when the context cannot be made current, [Frame]
    returns that error and neither clears nor submits. *)
Lemma Frame_not_current_counterexample :
  Frame no_current_backend sample_window samples.empty_Ops [] =
    Done ((sample_window, Some (BackendError 9)), [CallMakeCurrent 1])
  /\ ~ Frame_clears_then_submits no_current_backend sample_window samples.empty_Ops [].
Proof.
  split; [reflexivity|].
  intros (g & before & after & H). cbv zeta in H.
  change (Frame no_current_backend sample_window samples.empty_Ops [])
    with (@Done ((Window * error) * trace)
            ((sample_window, Some (BackendError 9)), [CallMakeCurrent 1])) in H.
  cbn in H. discriminate H.
Qed.

(** C7, amended.  On a window whose context and renderer are set: if the
    context is made current, [Frame] clears to transparent black, submits
    the buffer with the window's texture and size, releases the current
    context and returns exactly the error of the submission; if making the
    context current fails, [Frame] returns that error and calls nothing
    else. *)
Theorem Frame_clears_then_submits_when_current
    (be : Backend) (w : Window) (frame : ops.Ops) (t : trace) (c g : handle) :
  ctx w = Some c -> gpu w = Some g ->
  (ctx_MakeCurrent be t c = None ->
   Frame be w frame t =
   Done ((w, gpu_Frame be (t ++ [CallMakeCurrent c; CallClear g NRGBA_zero])
               g frame (fboTex w) (size w)),
         t ++ [CallMakeCurrent c; CallClear g NRGBA_zero;
               CallFrame g frame (fboTex w) (size w); CallReleaseCurrent c]))
  /\ (forall e, ctx_MakeCurrent be t c = Some e ->
      Frame be w frame t = Done ((w, Some e), t ++ [CallMakeCurrent c])).
Proof.
  intros Hc Hg. rewrite (Frame_run be w frame t Hc Hg). split.
  - intros ->. cbv zeta. flatten_log. reflexivity.
  - intros e ->. reflexivity.
Qed.

Lemma Frame_clears_then_submits_when_current_witness :
  Frame failing_render_backend sample_window samples.empty_Ops [] =
  Done ((sample_window, Some (BackendError 5)),
        [CallMakeCurrent 1; CallClear 4 NRGBA_zero;
         CallFrame 4 samples.empty_Ops (Some 3%nat) {| X := 4; Y := 4 |};
         CallReleaseCurrent 1]).
Proof.
  apply (Frame_clears_then_submits_when_current failing_render_backend
           sample_window samples.empty_Ops [] (c := 1%nat) (g := 4%nat)
           eq_refl eq_refl).
  reflexivity.
Defined.

(** C8, as stated, fails: when the context cannot be made current,
    [Screenshot] fails although no readback was attempted. *)
Lemma Screenshot_not_current_counterexample :
  Screenshot no_current_backend sample_window [] =
    Done ((sample_window, (None, Some (BackendError 9))), [CallMakeCurrent 1])
  /\ ~ Screenshot_reads_back no_current_backend sample_window [].
Proof.
  split; [reflexivity|].
  intros (before & after & img & err & Hrb & H). cbv zeta in Hrb, H.
  injection Hrb as <- <-.
  change (Screenshot no_current_backend sample_window [])
    with (@Done ((Window * (option RGBA * error)) * trace)
            ((sample_window, (None, Some (BackendError 9))), [CallMakeCurrent 1])) in H.
  discriminate H.
Qed.

(** C8, amended.  On a window whose context, device and texture are set:
    if the context is made current and the readback of the region from
    (0,0) to the window's size returns, [Screenshot] returns the bitmap with
    a nil error, or nil with the readback error when the readback failed;
    if making the context current fails, [Screenshot] returns nil with that
    error and reads nothing. *)
Theorem Screenshot_reads_back_when_current
    (be : Backend) (w : Window) (t : trace) (c d x : handle) :
  ctx w = Some c -> dev w = Some d -> fboTex w = Some x ->
  (forall (img : option RGBA) (err : error),
     ctx_MakeCurrent be t c = None ->
     driver_DownloadImage be (t ++ [CallMakeCurrent c])
       (Some d) (Some x) {| Min := ZP; Max := size w |} = Done (img, err) ->
     Screenshot be w t =
     Done ((w, match err with
               | Some e => (None, Some e)
               | None => (img, None)
               end),
           t ++ [CallMakeCurrent c;
                 CallDownloadImage (Some d) (Some x) {| Min := ZP; Max := size w |};
                 CallReleaseCurrent c]))
  /\ (forall e, ctx_MakeCurrent be t c = Some e ->
      Screenshot be w t = Done ((w, (None, Some e)), t ++ [CallMakeCurrent c])).
Proof.
  intros Hc Hd Hx. rewrite (Screenshot_run be w t Hc). split.
  - intros img err -> Hrb. cbv zeta. unfold full_region. rewrite Hd, Hx, Hrb.
    flatten_log. reflexivity.
  - intros e ->. reflexivity.
Qed.

Lemma Screenshot_reads_back_when_current_witness :
  Screenshot working_backend sample_window [] =
  Done ((sample_window,
         (Some (sample_bitmap {| Min := ZP; Max := {| X := 4; Y := 4 |} |}), None)),
        [CallMakeCurrent 1;
         CallDownloadImage (Some 2%nat) (Some 3%nat)
           {| Min := ZP; Max := {| X := 4; Y := 4 |} |};
         CallReleaseCurrent 1]).
Proof.
  destruct (Screenshot_reads_back_when_current working_backend sample_window []
              (c := 1%nat) (d := 2%nat) (x := 3%nat) eq_refl eq_refl eq_refl)
    as [Hok _].
  apply (Hok (Some (sample_bitmap {| Min := ZP; Max := {| X := 4; Y := 4 |} |})) None);
    reflexivity.
Defined.

(** C9.  A [Frame] or [Screenshot] that returns an error leaves every field
    of the window as it was, and none of the calls it made releases a
    resource. *)
Theorem failing_call_keeps_window (be : Backend) (w : Window) (t : trace) :
  (forall (frame : ops.Ops) (w' : Window) (e : err) (t' : trace),
     Frame be w frame t = Done ((w', Some e), t') ->
     w' = w /\ exists calls, t' = t ++ calls /\ existsb is_release calls = false)
  /\ (forall (w' : Window) (img : option RGBA) (e : err) (t' : trace),
        Screenshot be w t = Done ((w', (img, Some e)), t') ->
        w' = w /\ img = None
        /\ exists calls, t' = t ++ calls /\ existsb is_release calls = false).
Proof.
  split.
  - intros frame w' e t'. destruct (ctx w) as [c|] eqn:Hc.
    + destruct (gpu w) as [g|] eqn:Hg.
      * rewrite (Frame_run be w frame t Hc Hg).
        destruct (ctx_MakeCurrent be t c); cbv zeta; intros [= <- _ <-].
        -- split; [reflexivity|]. eexists. repeat split.
        -- split; [reflexivity|]. flatten_log. eexists. repeat split.
      * unfold Frame. run_io. rewrite Hc.
        destruct (ctx_MakeCurrent be t c); [|rewrite Hg; discriminate].
        intros [= <- _ <-]. split; [reflexivity|]. eexists. repeat split.
    + unfold Frame. run_io. rewrite Hc. discriminate.
  - intros w' img e t'. destruct (ctx w) as [c|] eqn:Hc.
    + rewrite (Screenshot_run be w t Hc).
      destruct (ctx_MakeCurrent be t c); cbv zeta.
      * intros [= <- <- _ <-]. repeat split. eexists. repeat split.
      * destruct (driver_DownloadImage _ _ _ _ _) as [[img' [e'|]]|p];
          [intros [= <- <- _ <-] | intros [= <- <- Hn <-]; discriminate Hn
           | discriminate].
        repeat split. flatten_log. eexists. repeat split.
    + unfold Screenshot. run_io. rewrite Hc. discriminate.
Qed.

Lemma failing_call_keeps_window_witness :
  Frame failing_render_backend sample_window samples.empty_Ops [] =
    Done ((sample_window, Some (BackendError 5)),
          [CallMakeCurrent 1; CallClear 4 NRGBA_zero;
           CallFrame 4 samples.empty_Ops (Some 3%nat) {| X := 4; Y := 4 |};
           CallReleaseCurrent 1])
  /\ (sample_window = sample_window
      /\ exists calls,
           [CallMakeCurrent 1; CallClear 4 NRGBA_zero;
            CallFrame 4 samples.empty_Ops (Some 3%nat) {| X := 4; Y := 4 |};
            CallReleaseCurrent 1] = [] ++ calls
           /\ existsb is_release calls = false)
  /\ Screenshot failing_render_backend sample_window [] =
       Done ((sample_window, (None, Some (BackendError 6))),
             [CallMakeCurrent 1;
              CallDownloadImage (Some 2%nat) (Some 3%nat)
                {| Min := ZP; Max := {| X := 4; Y := 4 |} |};
              CallReleaseCurrent 1])
  /\ (sample_window = sample_window /\ @None RGBA = None
      /\ exists calls,
           [CallMakeCurrent 1;
            CallDownloadImage (Some 2%nat) (Some 3%nat)
              {| Min := ZP; Max := {| X := 4; Y := 4 |} |};
            CallReleaseCurrent 1] = [] ++ calls
           /\ existsb is_release calls = false).
Proof.
  destruct (failing_call_keeps_window failing_render_backend sample_window [])
    as [HF HS].
  split; [reflexivity|]. split.
  - apply (HF samples.empty_Ops sample_window (BackendError 5) _ eq_refl).
  - split; [reflexivity|].
    apply (HS sample_window None (BackendError 6) _ eq_refl).
Defined.

End headless_facts.

(** * Further properties of package pointer *)

Module buttons_facts.

Import pointer pointer_strings.

(** ** Button sets *)

Lemma Contain_testbit (b buttons : Buttons) :
  Contain b buttons = true <->
  (forall i, Z.testbit buttons i = true -> Z.testbit b i = true).
Proof.
  unfold Contain. rewrite Z.eqb_eq. split.
  - intros H i Hi. rewrite <- H, Z.land_spec in Hi.
    apply andb_prop in Hi. tauto.
  - intros H. apply Z.bits_inj'. intros n _. rewrite Z.land_spec.
    destruct (Z.testbit buttons n) eqn:E.
    + rewrite (H n E). reflexivity.
    + apply andb_false_r.
Qed.

(** X1.  A set contains a union of button sets exactly when it contains
    both of them. *)
Theorem Contain_lor (b x y : Buttons) :
  Contain b (Z.lor x y) = Contain b x && Contain b y.
Proof.
  apply eq_true_iff_eq. rewrite andb_true_iff, !Contain_testbit. split.
  - intros H. split; intros i Hi; apply H; rewrite Z.lor_spec, Hi;
      [reflexivity | apply orb_true_r].
  - intros [Hx Hy] i Hi. rewrite Z.lor_spec in Hi.
    apply orb_prop in Hi as [Hi|Hi]; auto.
Qed.

(** X2.  Containment orders the button sets: it is transitive, two sets
    that contain each other are equal, and a set extended by [|] contains
    what was added. *)
Theorem Contain_order (a b c : Buttons) :
  (Contain a b = true -> Contain b c = true -> Contain a c = true)
  /\ (Contain a b = true -> Contain b a = true -> a = b)
  /\ Contain (Z.lor a b) b = true.
Proof.
  split; [|split].
  - rewrite !Contain_testbit. auto.
  - unfold Contain. rewrite !Z.eqb_eq. intros H1 H2.
    rewrite <- H2 at 1. rewrite Z.land_comm. exact H1.
  - apply Contain_testbit. intros i Hi. rewrite Z.lor_spec, Hi. apply orb_true_r.
Qed.

Lemma Contain_order_witness :
  Contain 7 3 = true /\ Contain 3 1 = true /\ Contain 7 1 = true.
Proof.
  split; [reflexivity|]. split; [reflexivity|].
  destruct (Contain_order 7 3 1) as (Htrans & _ & _).
  apply Htrans; reflexivity.
Defined.

Lemma Contain_pow2 (b : Buttons) (n : Z) :
  0 <= n -> Contain b (2 ^ n) = Z.testbit b n.
Proof.
  intros Hn. apply eq_true_iff_eq. rewrite Contain_testbit. split.
  - intros H. apply H. rewrite Z.pow2_bits_eqb by assumption. apply Z.eqb_refl.
  - intros H i Hi. rewrite Z.pow2_bits_eqb in Hi by assumption.
    apply Z.eqb_eq in Hi. subst i. exact H.
Qed.

Lemma land_7_bits (b b' : Z) :
  Z.land b 7 = Z.land b' 7 <->
  Z.testbit b 0 = Z.testbit b' 0 /\ Z.testbit b 1 = Z.testbit b' 1
  /\ Z.testbit b 2 = Z.testbit b' 2.
Proof.
  split.
  - intros H.
    assert (Hb : forall i, Z.testbit (Z.land b 7) i = Z.testbit (Z.land b' 7) i)
      by (intros i; rewrite H; reflexivity).
    pose proof (Hb 0) as H0. pose proof (Hb 1) as H1. pose proof (Hb 2) as H2.
    rewrite !Z.land_spec in H0, H1, H2. cbn in H0, H1, H2.
    rewrite !andb_true_r in H0, H1, H2. auto.
  - intros (H0 & H1 & H2). apply Z.bits_inj'. intros n Hn.
    rewrite !Z.land_spec.
    destruct (Z.eq_dec n 0) as [->|]; [rewrite H0; reflexivity|].
    destruct (Z.eq_dec n 1) as [->|]; [rewrite H1; reflexivity|].
    destruct (Z.eq_dec n 2) as [->|]; [rewrite H2; reflexivity|].
    change 7 with (Z.ones 3). rewrite Z.ones_spec_high by lia.
    rewrite !andb_false_r. reflexivity.
Qed.

Lemma Buttons_String_bits (b : Buttons) :
  Buttons_String b =
  Join ((if Z.testbit b 0 then ["ButtonPrimary"%string] else [])
        ++ (if Z.testbit b 1 then ["ButtonSecondary"%string] else [])
        ++ (if Z.testbit b 2 then ["ButtonTertiary"%string] else [])) "|".
Proof.
  unfold Buttons_String.
  change ButtonPrimary with (2 ^ 0). change ButtonSecondary with (2 ^ 1).
  change ButtonTertiary with (2 ^ 2).
  rewrite !Contain_pow2 by lia.
  destruct (Z.testbit b 0), (Z.testbit b 1), (Z.testbit b 2); reflexivity.
Qed.

(** X3.  [Buttons.String] names exactly the buttons among the three
    declared ones: it depends on the three low bits only, two sets print
    alike exactly when they agree on those bits, and the empty string is
    printed exactly when none of the three is contained. *)
Theorem Buttons_String_low_bits (b b' : Buttons) :
  Buttons_String b = Buttons_String (Z.land b 7)
  /\ (Buttons_String b = Buttons_String b' <-> Z.land b 7 = Z.land b' 7)
  /\ (Buttons_String b = ""%string <-> Z.land b 7 = 0).
Proof.
  assert (Hiff : forall x y, Buttons_String x = Buttons_String y <->
                             Z.land x 7 = Z.land y 7).
  { intros x y. rewrite land_7_bits, !Buttons_String_bits. split.
    - destruct (Z.testbit x 0), (Z.testbit x 1), (Z.testbit x 2),
        (Z.testbit y 0), (Z.testbit y 1), (Z.testbit y 2); cbn;
        intros H; try discriminate H; auto.
    - intros (-> & -> & ->). reflexivity. }
  split; [|split].
  - apply Hiff. rewrite <- Z.land_assoc. reflexivity.
  - apply Hiff.
  - change ""%string with (Buttons_String 0). rewrite Hiff. reflexivity.
Qed.

(** ** Names of event types, priorities, sources and cursors *)

(** X4.  [Type.String] returns exactly for the eight declared event types
    and panics for every other value; different types have different names;
    a set of two types, as the [Types] field of an [InputOp] holds, is not a
    declared type and makes [String] panic. *)
Theorem Type_String_declared_only (t : Z) :
  ((exists s, Type_String t = Returns s) <-> In t all_types)
  /\ (~ In t all_types -> Type_String t = PanicsWith "unknown Type")
  /\ (forall t' s, Type_String t = Returns s -> Type_String t' = Returns s -> t = t')
  /\ (forall a b, In a all_types -> In b all_types -> a <> b ->
        a <> Cancel -> b <> Cancel ->
        Type_String (Z.lor a b) = PanicsWith "unknown Type").
Proof.
  assert (Hnot : forall x, ~ In x all_types -> Type_String x = PanicsWith "unknown Type").
  { intros x Hx. unfold Type_String.
    repeat (match goal with
            | |- context [(x =? ?c)%Z] =>
                destruct (Z.eqb_spec x c) as [->|_];
                [exfalso; apply Hx; cbn; tauto|]
            end).
    reflexivity. }
  assert (Hin : forall x, In x all_types -> exists s, Type_String x = Returns s).
  { intros x Hx. cbn in Hx.
    repeat (destruct Hx as [<-|Hx]; [eexists; reflexivity|]). contradiction. }
  split; [|split; [|split]].
  - split; [|apply Hin]. intros [s Hs].
    destruct (in_dec Z.eq_dec t all_types) as [H|H]; [exact H|].
    rewrite (Hnot t H) in Hs. discriminate.
  - apply Hnot.
  - intros t' s Ht Ht'.
    destruct (in_dec Z.eq_dec t all_types) as [H|H];
      [|rewrite (Hnot t H) in Ht; discriminate].
    destruct (in_dec Z.eq_dec t' all_types) as [H'|H'];
      [|rewrite (Hnot t' H') in Ht'; discriminate].
    cbn in H, H'.
    repeat (destruct H as [<-|H]; [|]); try contradiction;
      repeat (destruct H' as [<-|H']; [|]); try contradiction;
      first [reflexivity | (cbv in Ht, Ht'; congruence)].
  - intros a b Ha Hb Hab Hca Hcb. cbn in Ha, Hb.
    repeat (destruct Ha as [<-|Ha]; [|]); try contradiction;
      repeat (destruct Hb as [<-|Hb]; [|]); try contradiction;
      first [reflexivity | congruence].
Qed.

(** X5.  [Priority.String] returns exactly for the priorities 0, 1 and 2,
    and [Source.String] exactly for the sources 0 and 1; every other value
    panics. *)
Theorem Priority_Source_String_declared_only (v : Z) :
  ((exists s, Priority_String v = Returns s) <-> 0 <= v <= 2)
  /\ (~ 0 <= v <= 2 -> Priority_String v = PanicsWith "unknown priority")
  /\ ((exists s, Source_String v = Returns s) <-> 0 <= v <= 1)
  /\ (~ 0 <= v <= 1 -> Source_String v = PanicsWith "unknown source").
Proof.
  unfold Priority_String, Source_String, Shared, Foremost, Grabbed, Mouse, Touch.
  destruct (Z.eqb_spec v 0) as [->|H0];
    [|destruct (Z.eqb_spec v 1) as [->|H1];
      [|destruct (Z.eqb_spec v 2) as [->|H2]]];
    repeat split;
    first [ lia
          | solve [eauto]
          | intros [s Hs]; discriminate Hs
          | match goal with
            | H : exists _, _ |- _ => destruct H as [? H]; discriminate H
            end
          | intros; lia
          | intros; reflexivity ].
Qed.

(** X6.  [CursorName.String] never returns the empty string, and two
    cursor names print alike exactly when they are equal or are the default
    cursor and a cursor named "default". *)
Theorem CursorName_String_collisions (c c' : string) :
  CursorName_String c <> ""%string
  /\ (CursorName_String c = CursorName_String c' <->
      c = c' \/ ((c = ""%string \/ c = "default"%string)
                 /\ (c' = ""%string \/ c' = "default"%string))).
Proof.
  unfold CursorName_String, CursorDefault.
  destruct (String.eqb_spec c ""), (String.eqb_spec c' ""); subst.
  - split; [discriminate|]. split; auto.
  - split; [discriminate|]. split.
    + intros <-. right. auto.
    + intros [H|[_ [H|H]]]; congruence.
  - split; [assumption|]. split.
    + intros ->. right. auto.
    + intros [H|[[H|H] _]]; congruence.
  - split; [assumption|]. split; [auto|].
    intros [H|[[H|H] [H'|H']]]; congruence.
Qed.

End buttons_facts.

(** * Further properties of the encoders *)

Module encoding_facts.

Import image ops pointer encoding_props samples.

Section Room.

Variables TypeArea TypeCursor TypePointerInput : Z.

(** Below eighteen bytes [AreaOp.add] runs out of the slice. *)
Lemma AreaOp_add_short (n : nat) (a : AreaOp) (push : bool) (o : Ops) :
  (n < 18)%nat -> AreaOp_add TypeArea n a push o = Panic IndexOutOfRange.
Proof.
  intros Hn. do 18 (destruct n as [|n]; [reflexivity|]). lia.
Qed.

(** Below nineteen bytes [InputOp.Add] runs out of the slice, once the
    operation has passed validation. *)
Lemma InputOp_Add_short (n : nat) (op : InputOp) (o : Ops) (tag : nat) :
  (n < 19)%nat -> Tag op = Some tag -> valid_bounds (ScrollBounds op) ->
  InputOp_Add TypePointerInput n op o = Panic IndexOutOfRange.
Proof.
  intros Hn Ht Hb. apply pointer_facts.bounds_check in Hb.
  unfold InputOp_Add. rewrite Ht. cbv zeta. rewrite Hb.
  destruct (Grab op);
    do 19 (destruct n as [|n]; [reflexivity|]); lia.
Qed.

Lemma CursorNameOp_Add_short (op : CursorNameOp) (o : Ops) :
  CursorNameOp_Add TypeCursor 0 op o = Panic IndexOutOfRange.
Proof. reflexivity. Qed.

End Room.

Lemma classic_bounds (b : Rectangle) : valid_bounds b \/ ~ valid_bounds b.
Proof. unfold valid_bounds. lia. Qed.

(** X7.  The encoders need room for what they write: [AreaOp.add] returns
    exactly when the declared record length is at least 18 and panics with
    an index out of range below that; [CursorNameOp.Add] needs 1 byte;
    [InputOp.Add], for an operation that passes validation, needs 19. *)
Theorem encoders_need_room
    (TypeArea TypeCursor TypePointerInput : Z) (n : nat) (o : Ops) :
  (forall (a : AreaOp) (push : bool),
     ((exists o', AreaOp_add TypeArea n a push o = Done (tt, o')) <-> (18 <= n)%nat)
     /\ ((n < 18)%nat -> AreaOp_add TypeArea n a push o = Panic IndexOutOfRange))
  /\ (forall c : CursorNameOp,
        ((exists o', CursorNameOp_Add TypeCursor n c o = Done (tt, o')) <-> (1 <= n)%nat)
        /\ ((n < 1)%nat -> CursorNameOp_Add TypeCursor n c o = Panic IndexOutOfRange))
  /\ (forall (op : InputOp),
        Tag op <> None -> valid_bounds (ScrollBounds op) ->
        ((exists o', InputOp_Add TypePointerInput n op o = Done (tt, o')) <-> (19 <= n)%nat)
        /\ ((n < 19)%nat -> InputOp_Add TypePointerInput n op o = Panic IndexOutOfRange)).
Proof.
  split; [|split].
  - intros a push. split; [split|].
    + intros [o' Ho']. destruct (le_lt_dec 18 n) as [H|H]; [exact H|].
      rewrite (AreaOp_add_short TypeArea a push o H) in Ho'. discriminate.
    + intros H. eexists.
      apply (pointer_facts.AreaOp_add_record TypeArea a push o (k := (n - 18)%nat)). lia.
    + apply AreaOp_add_short.
  - intros c. split; [split|].
    + intros [o' Ho']. destruct n; [|lia].
      rewrite CursorNameOp_Add_short in Ho'. discriminate.
    + intros H. eexists.
      apply (pointer_facts.CursorNameOp_Add_record TypeCursor c o (k := (n - 1)%nat)). lia.
    + intros H. destruct n; [|lia]. apply CursorNameOp_Add_short.
  - intros op Ht Hb. destruct (Tag op) as [tag|] eqn:Etag; [|contradiction].
    split; [split|].
    + intros [o' Ho']. destruct (le_lt_dec 19 n) as [H|H]; [exact H|].
      rewrite (InputOp_Add_short TypePointerInput op o H Etag Hb) in Ho'. discriminate.
    + intros H. eexists.
      apply (pointer_facts.InputOp_Add_record TypePointerInput op o (tag := tag) (k := (n - 19)%nat));
        [lia | exact Etag | exact Hb].
    + intros H. apply (InputOp_Add_short TypePointerInput op o H Etag Hb).
Qed.

Lemma encoders_need_room_witness :
  AreaOp_add sample_TypeArea 17 sample_area true empty_Ops = Panic IndexOutOfRange
  /\ InputOp_Add sample_TypePointerInput 18 sample_input empty_Ops = Panic IndexOutOfRange.
Proof.
  destruct (encoders_need_room sample_TypeArea sample_TypeCursor
              sample_TypePointerInput 17 empty_Ops) as (Ha & _ & _).
  destruct (encoders_need_room sample_TypeArea sample_TypeCursor
              sample_TypePointerInput 18 empty_Ops) as (_ & _ & Hi).
  split.
  - apply (Ha sample_area true). lia.
  - apply (Hi sample_input); [discriminate | cbv; intuition discriminate | lia].
Defined.

(** X8.  Which panic [InputOp.Add] raises: a nil tag gives "Tag must be
    non-nil" whatever the bounds and the record length are; with a non-nil
    tag a scroll range without zero gives the error that carries the range,
    whatever the record length is; an index out of range is raised only for
    an operation that passes both checks. *)
Theorem InputOp_Add_validation_order
    (TypePointerInput : Z) (n : nat) (op : InputOp) (o : Ops) :
  (InputOp_Add TypePointerInput n op o = Panic TagMustBeNonNil <-> Tag op = None)
  /\ (forall b, InputOp_Add TypePointerInput n op o = Panic (InvalidScrollRange b) <->
        Tag op <> None /\ ~ valid_bounds (ScrollBounds op) /\ b = ScrollBounds op)
  /\ (InputOp_Add TypePointerInput n op o = Panic IndexOutOfRange <->
      Tag op <> None /\ valid_bounds (ScrollBounds op) /\ (n < 19)%nat).
Proof.
  destruct (Tag op) as [tag|] eqn:Etag.
  - destruct (classic_bounds (ScrollBounds op)) as [Hb|Hb].
    + destruct (le_lt_dec 19 n) as [Hn|Hn].
      * rewrite (pointer_facts.InputOp_Add_record TypePointerInput op o
                   (tag := tag) (k := (n - 19)%nat)) by (lia || assumption).
        split; [|split; [intros b|]]; split; intros H;
          first [discriminate H | tauto | lia].
      * rewrite (InputOp_Add_short TypePointerInput op o Hn Etag Hb).
        split; [|split; [intros b|]]; split; intros H.
        -- discriminate H.
        -- discriminate H.
        -- discriminate H.
        -- tauto.
        -- split; [discriminate | split; [exact Hb | exact Hn]].
        -- reflexivity.
    + assert (Hres : InputOp_Add TypePointerInput n op o =
                     Panic (InvalidScrollRange (ScrollBounds op))).
      { unfold InputOp_Add. rewrite Etag. cbv zeta.
        destruct (_ || _) eqn:E; [reflexivity|].
        apply pointer_facts.bounds_check in E. contradiction. }
      rewrite Hres. split; [|split; [intros b|]]; split; intros H.
      * discriminate.
      * discriminate.
      * injection H as <-. repeat split; [discriminate | exact Hb].
      * destruct H as (_ & _ & ->). reflexivity.
      * discriminate.
      * tauto.
  - assert (Hres : InputOp_Add TypePointerInput n op o = Panic TagMustBeNonNil)
      by (unfold InputOp_Add; rewrite Etag; reflexivity).
    rewrite Hres. split; [|split; [intros b|]]; split; intros H.
    + reflexivity.
    + reflexivity.
    + discriminate.
    + destruct H as (H & _). contradiction.
    + discriminate.
    + destruct H as (H & _). contradiction.
Qed.

(** ** Composition *)

Lemma appends_bind (m1 m2 : enc unit) (r1 r2 : list Z) (s1 s2 : list Ref) :
  appends m1 r1 s1 -> appends m2 r2 s2 ->
  appends (run m1; m2) (r1 ++ r2) (s1 ++ s2).
Proof.
  intros H1 H2 o. unfold bind. rewrite H1, H2. cbn [data refs].
  rewrite <- !app_assoc. reflexivity.
Qed.

(** X9.  With record lengths that hold the bytes written, each encoder
    appends a record that does not depend on what the buffer holds, and
    encoders run one after the other leave their records, and their
    references, in the order of the calls: an area, an input handler and a
    cursor give the three records in a row and the references tag, name. *)
Theorem encoders_compose
    (TypeArea TypeCursor TypePointerInput : Z)
    (TypeAreaLen TypeCursorLen TypePointerInputLen : nat)
    (a : AreaOp) (push : bool) (op : InputOp) (tag : nat) (c : CursorNameOp) :
  (18 <= TypeAreaLen)%nat ->
  (19 <= TypePointerInputLen)%nat ->
  (1 <= TypeCursorLen)%nat ->
  Tag op = Some tag ->
  valid_bounds (ScrollBounds op) ->
  exists ra ri rc : list Z,
    length ra = TypeAreaLen /\ length ri = TypePointerInputLen
    /\ length rc = TypeCursorLen
    /\ appends (AreaOp_add TypeArea TypeAreaLen a push) ra []
    /\ appends (InputOp_Add TypePointerInput TypePointerInputLen op) ri [RefTag tag]
    /\ appends (CursorNameOp_Add TypeCursor TypeCursorLen c) rc [RefCursor (Name c)]
    /\ appends (run AreaOp_add TypeArea TypeAreaLen a push;
                run InputOp_Add TypePointerInput TypePointerInputLen op;
                CursorNameOp_Add TypeCursor TypeCursorLen c)
               (ra ++ ri ++ rc) [RefTag tag; RefCursor (Name c)].
Proof.
  intros Ha Hi Hc Ht Hb.
  set (ra := area_record TypeArea a (TypeAreaLen - 18)).
  set (ri := input_record TypePointerInput op (TypePointerInputLen - 19)).
  set (rc := byte_of TypeCursor :: replicate (TypeCursorLen - 1) 0).
  assert (Aa : appends (AreaOp_add TypeArea TypeAreaLen a push) ra []).
  { intros o. rewrite app_nil_r.
    apply pointer_facts.AreaOp_add_record. lia. }
  assert (Ai : appends (InputOp_Add TypePointerInput TypePointerInputLen op) ri
                 [RefTag tag]).
  { intros o. apply pointer_facts.InputOp_Add_record; [lia | exact Ht | exact Hb]. }
  assert (Ac : appends (CursorNameOp_Add TypeCursor TypeCursorLen c) rc
                 [RefCursor (Name c)]).
  { intros o. apply pointer_facts.CursorNameOp_Add_record. lia. }
  exists ra, ri, rc. repeat split; try assumption.
  - unfold ra, area_record. cbn. rewrite length_replicate. lia.
  - unfold ri, input_record. cbn. rewrite length_replicate. lia.
  - unfold rc. cbn. rewrite length_replicate. lia.
  - apply (appends_bind Aa (appends_bind Ai Ac)).
Qed.

Lemma encoders_compose_witness :
  exists ra ri rc : list Z,
    length ra = 18%nat /\ length ri = 19%nat /\ length rc = 1%nat
    /\ appends (run AreaOp_add sample_TypeArea 18 sample_area true;
                run InputOp_Add sample_TypePointerInput 19 sample_input;
                CursorNameOp_Add sample_TypeCursor 1 {| Name := "grab" |})
               (ra ++ ri ++ rc) [RefTag 1%nat; RefCursor "grab"].
Proof.
  destruct (@encoders_compose sample_TypeArea sample_TypeCursor
              sample_TypePointerInput 18 1 19 sample_area true sample_input 1%nat
              {| Name := "grab" |} ltac:(lia) ltac:(lia) ltac:(lia) eq_refl
              ltac:(cbv; intuition discriminate))
    as (ra & ri & rc & Ha & Hi & Hc & _ & _ & _ & Hall).
  exists ra, ri, rc. repeat split; assumption.
Defined.

(** ** What the records determine *)

Lemma le32_uint32_inj (x y : Z) :
  le32 (uint32 x) = le32 (uint32 y) -> same_uint32 x y.
Proof.
  intros H. apply (f_equal le_value) in H.
  rewrite !pointer_facts.le32_uint32 in H. exact H.
Qed.

Lemma same_uint32_eq (x y : Z) : same_uint32 x y -> uint32 x = uint32 y.
Proof. intros H. exact H. Qed.

Lemma same_uint32_int32 (x y : Z) :
  int32_range x -> int32_range y -> same_uint32 x y -> x = y.
Proof.
  unfold int32_range, same_uint32. intros Hx Hy H.
  change (2 ^ 31) with 2147483648 in *. change (2 ^ 32) with 4294967296 in *.
  pose proof (Z.div_mod x 4294967296 ltac:(lia)) as Dx.
  pose proof (Z.div_mod y 4294967296 ltac:(lia)) as Dy.
  pose proof (Z.mod_pos_bound x 4294967296 ltac:(lia)) as Bx.
  pose proof (Z.mod_pos_bound y 4294967296 ltac:(lia)) as By.
  lia.
Qed.

Lemma areaKind_val_inj (k k' : areaKind) :
  byte_of (areaKind_val k) = byte_of (areaKind_val k') -> k = k'.
Proof. destruct k, k'; cbv; congruence. Qed.

Lemma le32_length (v : Z) : length (le32 v) = 4%nat.
Proof. reflexivity. Qed.

Lemma coords_inj (x1 y1 x2 y2 x1' y1' x2' y2' : Z) (tl tl' : list Z) :
  le32 (uint32 x1) ++ le32 (uint32 y1) ++ le32 (uint32 x2) ++ le32 (uint32 y2) ++ tl =
  le32 (uint32 x1') ++ le32 (uint32 y1') ++ le32 (uint32 x2') ++ le32 (uint32 y2') ++ tl' ->
  same_uint32 x1 x1' /\ same_uint32 y1 y1' /\ same_uint32 x2 x2' /\ same_uint32 y2 y2'.
Proof.
  intros H.
  apply app_inj_1 in H as [H1 H]; [|reflexivity].
  apply app_inj_1 in H as [H2 H]; [|reflexivity].
  apply app_inj_1 in H as [H3 H]; [|reflexivity].
  apply app_inj_1 in H as [H4 H]; [|reflexivity].
  auto using le32_uint32_inj.
Qed.

(** X10.  With a record length of at least 18, two areas written to the
    same buffer give the same buffer exactly when they have the same kind
    and their coordinates agree on the low 32 bits: coordinates within the
    int32 range can be read back, larger ones are cut off. *)
Theorem AreaOp_add_determines
    (TypeArea : Z) (TypeAreaLen : nat) (a a' : AreaOp) (push push' : bool) (o : Ops) :
  (18 <= TypeAreaLen)%nat ->
  (AreaOp_add TypeArea TypeAreaLen a push o = AreaOp_add TypeArea TypeAreaLen a' push' o
   <-> kind a = kind a' /\ same_uint32_rect (rect a) (rect a'))
  /\ (int32_rect (rect a) -> int32_rect (rect a') ->
      AreaOp_add TypeArea TypeAreaLen a push o = AreaOp_add TypeArea TypeAreaLen a' push' o ->
      a = a').
Proof.
  intros Hlen.
  assert (Hiff : AreaOp_add TypeArea TypeAreaLen a push o =
                 AreaOp_add TypeArea TypeAreaLen a' push' o
                 <-> kind a = kind a' /\ same_uint32_rect (rect a) (rect a')).
  { rewrite !(pointer_facts.AreaOp_add_record TypeArea _ _ o (k := (TypeAreaLen - 18)%nat))
      by lia.
    split.
    - intros H. injection H as H. apply app_inv_head in H.
      unfold area_record in H.
      apply app_inj_1 in H as [Hhd H]; [|reflexivity]. injection Hhd as Hk.
      split; [apply areaKind_val_inj, Hk | eapply coords_inj; exact H].
    - intros [Hk (H1 & H2 & H3 & H4)]. unfold area_record.
      rewrite Hk, (same_uint32_eq H1), (same_uint32_eq H2),
        (same_uint32_eq H3), (same_uint32_eq H4). reflexivity. }
  split; [exact Hiff|].
  intros (A1 & A2 & A3 & A4) (B1 & B2 & B3 & B4) H.
  apply Hiff in H as [Hk (H1 & H2 & H3 & H4)].
  apply same_uint32_int32 in H1, H2, H3, H4; try assumption.
  destruct a as [k [[x1 y1] [x2 y2]]], a' as [k' [[x1' y1'] [x2' y2']]].
  cbn in *. congruence.
Qed.

Lemma AreaOp_add_determines_witness :
  (18 <= 18)%nat
  /\ AreaOp_add sample_TypeArea 18 sample_area true empty_Ops =
     AreaOp_add sample_TypeArea 18
       (Rect {| Min := {| X := 2 ^ 32 - 1; Y := 2 |};
                Max := {| X := 258; Y := 65536 + 2 ^ 32 |} |}) false empty_Ops.
Proof.
  split; [lia|].
  apply (@AreaOp_add_determines sample_TypeArea 18 sample_area
           (Rect {| Min := {| X := 2 ^ 32 - 1; Y := 2 |};
                    Max := {| X := 258; Y := 65536 + 2 ^ 32 |} |})
           true false empty_Ops ltac:(lia)).
  split; [reflexivity|]. repeat split.
Defined.

(** X11.  With a record length of at least 19, two input handlers that
    pass validation give the same buffer exactly when they have the same
    tag and grab flag, types that agree on the low 8 bits and scroll bounds
    that agree on the low 32 bits; within the uint8 and int32 ranges the
    handler can be read back from the buffer. *)
Theorem InputOp_Add_determines
    (TypePointerInput : Z) (TypePointerInputLen : nat)
    (op op' : InputOp) (tag tag' : nat) (o : Ops) :
  (19 <= TypePointerInputLen)%nat ->
  Tag op = Some tag -> Tag op' = Some tag' ->
  valid_bounds (ScrollBounds op) -> valid_bounds (ScrollBounds op') ->
  (InputOp_Add TypePointerInput TypePointerInputLen op o =
   InputOp_Add TypePointerInput TypePointerInputLen op' o
   <-> tag = tag' /\ Grab op = Grab op'
       /\ Types op mod 256 = Types op' mod 256
       /\ same_uint32_rect (ScrollBounds op) (ScrollBounds op'))
  /\ (0 <= Types op < 256 -> 0 <= Types op' < 256 ->
      int32_rect (ScrollBounds op) -> int32_rect (ScrollBounds op') ->
      InputOp_Add TypePointerInput TypePointerInputLen op o =
      InputOp_Add TypePointerInput TypePointerInputLen op' o ->
      op = op').
Proof.
  intros Hlen Ht Ht' Hb Hb'.
  assert (Hiff : InputOp_Add TypePointerInput TypePointerInputLen op o =
                 InputOp_Add TypePointerInput TypePointerInputLen op' o
                 <-> tag = tag' /\ Grab op = Grab op'
                     /\ Types op mod 256 = Types op' mod 256
                     /\ same_uint32_rect (ScrollBounds op) (ScrollBounds op')).
  { rewrite (pointer_facts.InputOp_Add_record TypePointerInput op o
               (tag := tag) (k := (TypePointerInputLen - 19)%nat)) by (lia || assumption).
    rewrite (pointer_facts.InputOp_Add_record TypePointerInput op' o
               (tag := tag') (k := (TypePointerInputLen - 19)%nat)) by (lia || assumption).
    split.
    - intros H. injection H as Hd Hr.
      apply app_inv_head in Hd. apply app_inv_head in Hr.
      injection Hr as Hr. unfold input_record in Hd.
      apply app_inj_1 in Hd as [Hhd Hd]; [|reflexivity]. injection Hhd as Hg Hty.
      split; [exact Hr|]. split; [destruct (Grab op), (Grab op'); congruence|].
      split; [exact Hty | eapply coords_inj; exact Hd].
    - intros (-> & Hg & Hty & (H1 & H2 & H3 & H4)). unfold input_record, byte_of.
      rewrite Hg, Hty, (same_uint32_eq H1), (same_uint32_eq H2),
        (same_uint32_eq H3), (same_uint32_eq H4). reflexivity. }
  split; [exact Hiff|].
  intros Hty Hty' (A1 & A2 & A3 & A4) (B1 & B2 & B3 & B4) H.
  apply Hiff in H as (Htag & Hg & Hm & (H1 & H2 & H3 & H4)).
  apply same_uint32_int32 in H1, H2, H3, H4; try assumption.
  rewrite !Z.mod_small in Hm by assumption.
  destruct op as [t g ty [[x1 y1] [x2 y2]]], op' as [t' g' ty' [[x1' y1'] [x2' y2']]].
  cbn in *. congruence.
Qed.

Lemma InputOp_Add_determines_witness :
  InputOp_Add sample_TypePointerInput 19 sample_input empty_Ops =
  InputOp_Add sample_TypePointerInput 19
    {| Tag := Some 1%nat; Grab := true; Types := Z.lor Press Scroll;
       ScrollBounds := {| Min := {| X := -10 - 2 ^ 32; Y := 0 |};
                          Max := {| X := 300 + 2 ^ 32; Y := 20 |} |} |} empty_Ops.
Proof.
  apply (@InputOp_Add_determines sample_TypePointerInput 19 sample_input
           {| Tag := Some 1%nat; Grab := true; Types := Z.lor Press Scroll;
              ScrollBounds := {| Min := {| X := -10 - 2 ^ 32; Y := 0 |};
                                 Max := {| X := 300 + 2 ^ 32; Y := 20 |} |} |}
           1%nat 1%nat empty_Ops ltac:(lia) eq_refl eq_refl
           ltac:(cbv; intuition discriminate) ltac:(cbv; intuition discriminate)).
  repeat split.
Defined.

End encoding_facts.

(** * Further properties of package headless *)

Module lifecycle_facts.

Import image headless headless_samples lifecycle_props lifecycle_samples.

Ltac step_io :=
  unfold contextDo, method, call, bind, ret, raise in *; cbn in *.

Ltac log_assoc := rewrite <- ?app_assoc; cbn [app].

(** ** Construction *)

(** X12.  When every step succeeds, [NewWindow] makes the context current,
    asks for its API, creates the device, the texture of the requested size
    and the renderer, in this order, releases the current context, and
    returns a window that holds the context, the three objects and the
    requested size. *)
Theorem NewWindow_builds_in_order
    (be : Backend) (width height : Z) (t t1 : trace)
    (c d : handle) (tex : Texture) (gp : GPU) :
  let api := ctx_API be (t1 ++ [CallMakeCurrent c]) c in
  let new_texture :=
    CallNewTexture d TextureFormatSRGBA width height
      FilterNearest FilterNearest BufferBindingFramebuffer in
  newContext be t = Done ((Some c, None), t1) ->
  ctx_MakeCurrent be t1 c = None ->
  driver_NewDevice be (t1 ++ [CallMakeCurrent c; CallAPI c]) api = (Some d, None) ->
  dev_NewTexture be (t1 ++ [CallMakeCurrent c; CallAPI c; CallNewDevice api])
    d width height = (tex, None) ->
  gpu_New be (t1 ++ [CallMakeCurrent c; CallAPI c; CallNewDevice api; new_texture])
    api = (gp, None) ->
  NewWindow be width height t =
  Done ((Some {| size := {| X := width; Y := height |}; ctx := Some c;
                 dev := Some d; gpu := gp; fboTex := tex |}, None),
        t1 ++ [CallMakeCurrent c; CallAPI c; CallNewDevice api; new_texture;
               CallGpuNew api; CallReleaseCurrent c]).
Proof.
  cbv zeta. intros Hctx Hmc Hdev Htex Hgpu.
  unfold NewWindow. unfold bind at 1. rewrite Hctx.
  step_io. rewrite Hmc. log_assoc. rewrite Hdev. log_assoc.
  rewrite Htex. log_assoc. rewrite Hgpu. log_assoc. reflexivity.
Qed.

Lemma NewWindow_builds_in_order_witness :
  NewWindow working_backend 4 4 [] = Done ((Some sample_window, None), sample_construction).
Proof.
  apply (@NewWindow_builds_in_order working_backend 4 4 [] [CallNewContext 0]
           1%nat 2%nat (Some 3%nat) (Some 4%nat));
    reflexivity.
Defined.

(** X13.  Failures before any GPU object exists: when backend selection
    fails, [NewWindow] returns its error and calls nothing else; when the
    context cannot be made current, or the device cannot be created, it
    releases the context (after the current context, in the second case)
    and returns the error.  No window is returned. *)
Theorem NewWindow_early_failures
    (be : Backend) (width height : Z) (t t1 : trace) (e : err) :
  (forall c : context,
     newContext be t = Done ((c, Some e), t1) ->
     NewWindow be width height t = Done ((None, Some e), t1))
  /\ (forall c : handle,
        newContext be t = Done ((Some c, None), t1) ->
        ctx_MakeCurrent be t1 c = Some e ->
        NewWindow be width height t =
        Done ((None, Some e), t1 ++ [CallMakeCurrent c; CallContextRelease c]))
  /\ (forall (c : handle) (dv : Device),
        let api := ctx_API be (t1 ++ [CallMakeCurrent c]) c in
        newContext be t = Done ((Some c, None), t1) ->
        ctx_MakeCurrent be t1 c = None ->
        driver_NewDevice be (t1 ++ [CallMakeCurrent c; CallAPI c]) api = (dv, Some e) ->
        NewWindow be width height t =
        Done ((None, Some e),
              t1 ++ [CallMakeCurrent c; CallAPI c; CallNewDevice api;
                     CallReleaseCurrent c; CallContextRelease c])).
Proof.
  split; [|split].
  - intros c Hctx. unfold NewWindow. unfold bind at 1. rewrite Hctx. reflexivity.
  - intros c Hctx Hmc. unfold NewWindow. unfold bind at 1. rewrite Hctx.
    step_io. rewrite Hmc. log_assoc. reflexivity.
  - intros c dv api Hctx Hmc Hdev. subst api.
    unfold NewWindow. unfold bind at 1. rewrite Hctx.
    step_io. rewrite Hmc. log_assoc. rewrite Hdev. log_assoc. reflexivity.
Qed.

Lemma NewWindow_early_failures_witness :
  NewWindow unconfigured_backend 4 4 [] = Done ((None, Some noBackends), [])
  /\ NewWindow no_current_backend 4 4 [] =
       Done ((None, Some (BackendError 9)),
             [CallNewContext 0; CallMakeCurrent 1; CallContextRelease 1])
  /\ NewWindow device_fails_backend 4 4 [] =
       Done ((None, Some (BackendError 12)),
             [CallNewContext 0; CallMakeCurrent 1; CallAPI 1; CallNewDevice 0;
              CallReleaseCurrent 1; CallContextRelease 1]).
Proof.
  split; [|split].
  - destruct (@NewWindow_early_failures unconfigured_backend 4 4 [] [] noBackends)
      as (H & _ & _).
    apply (H None). reflexivity.
  - destruct (@NewWindow_early_failures no_current_backend 4 4 [] [CallNewContext 0]
                (BackendError 9)) as (_ & H & _).
    apply (H 1%nat); reflexivity.
  - destruct (@NewWindow_early_failures device_fails_backend 4 4 [] [CallNewContext 0]
                (BackendError 12)) as (_ & _ & H).
    apply (H 1%nat None); reflexivity.
Defined.

(** X14.  When the renderer cannot be created, [NewWindow] releases the
    texture, then the device, then the current context, then the context,
    and returns no window and the error. *)
Theorem NewWindow_renderer_failure_rolls_back_all
    (be : Backend) (width height : Z) (t t1 : trace)
    (c d x : handle) (gp : GPU) (e : err) :
  let api := ctx_API be (t1 ++ [CallMakeCurrent c]) c in
  let new_texture :=
    CallNewTexture d TextureFormatSRGBA width height
      FilterNearest FilterNearest BufferBindingFramebuffer in
  newContext be t = Done ((Some c, None), t1) ->
  ctx_MakeCurrent be t1 c = None ->
  driver_NewDevice be (t1 ++ [CallMakeCurrent c; CallAPI c]) api = (Some d, None) ->
  dev_NewTexture be (t1 ++ [CallMakeCurrent c; CallAPI c; CallNewDevice api])
    d width height = (Some x, None) ->
  gpu_New be (t1 ++ [CallMakeCurrent c; CallAPI c; CallNewDevice api; new_texture])
    api = (gp, Some e) ->
  NewWindow be width height t =
  Done ((None, Some e),
        t1 ++ [CallMakeCurrent c; CallAPI c; CallNewDevice api; new_texture;
               CallGpuNew api; CallTextureRelease x; CallDeviceRelease d;
               CallReleaseCurrent c; CallContextRelease c]).
Proof.
  cbv zeta. intros Hctx Hmc Hdev Htex Hgpu.
  unfold NewWindow. unfold bind at 1. rewrite Hctx.
  step_io. rewrite Hmc. log_assoc. rewrite Hdev. log_assoc.
  rewrite Htex. log_assoc. rewrite Hgpu. log_assoc. reflexivity.
Qed.

Lemma NewWindow_renderer_failure_rolls_back_all_witness :
  NewWindow renderer_fails_backend 4 4 [] =
  Done ((None, Some (BackendError 8)),
        [CallNewContext 0; CallMakeCurrent 1; CallAPI 1; CallNewDevice 0;
         CallNewTexture 2 TextureFormatSRGBA 4 4 FilterNearest FilterNearest
           BufferBindingFramebuffer;
         CallGpuNew 0; CallTextureRelease 3; CallDeviceRelease 2;
         CallReleaseCurrent 1; CallContextRelease 1]).
Proof.
  apply (@NewWindow_renderer_failure_rolls_back_all renderer_fails_backend 4 4 []
           [CallNewContext 0] 1%nat 2%nat 3%nat None (BackendError 8));
    reflexivity.
Defined.

(** Every [NewWindow] that returns a window returns it with the requested
    size and a context, and without an error. *)
Lemma NewWindow_returns (be : Backend) (width height : Z) (t t' : trace)
    (ow : option Window) (e : error) :
  NewWindow be width height t = Done ((ow, e), t') ->
  match ow with
  | Some w => e = None /\ size w = {| X := width; Y := height |}
              /\ exists c, ctx w = Some c
  | None => e <> None
  end.
Proof.
  unfold NewWindow. unfold bind at 1.
  destruct (newContext be t) as [[[c [e0|]] t1]|p]; [| |discriminate].
  - intros [= <- <- _]. discriminate.
  - destruct c as [c|]; [|discriminate]. step_io.
    destruct (ctx_MakeCurrent be t1 c) as [e1|]; cbn.
    + intros [= <- <- _]. discriminate.
    + destruct (driver_NewDevice _ _ _) as [dv [e2|]]; cbn.
      * intros [= <- <- _]. discriminate.
      * destruct dv as [d|]; [|discriminate]. cbn.
        destruct (dev_NewTexture _ _ _ _ _) as [tx [e3|]]; cbn.
        -- intros [= <- <- _]. cbn. eauto.
        -- destruct (gpu_New _ _ _) as [gp [e4|]]; cbn.
           ++ destruct tx as [x|]; [|discriminate]. cbn.
              intros [= <- <- _]. discriminate.
           ++ intros [= <- <- _]. cbn. eauto.
Qed.

(** X15.  A returning [NewWindow] returns either a window or an error,
    never both and never neither; a window it returns has the requested
    size and a non-nil context. *)
Theorem NewWindow_window_xor_error
    (be : Backend) (width height : Z) (t t' : trace)
    (ow : option Window) (e : error) :
  NewWindow be width height t = Done ((ow, e), t') ->
  (ow = None <-> e <> None)
  /\ (forall w, ow = Some w ->
        size w = {| X := width; Y := height |} /\ ctx w <> None).
Proof.
  intros H. apply NewWindow_returns in H. destruct ow as [w|].
  - destruct H as (-> & Hs & c & Hc). split.
    + split; [discriminate | intros Hn; contradiction].
    + intros w' [= <-]. rewrite Hc. split; [exact Hs | discriminate].
  - split; [tauto | discriminate].
Qed.

Lemma NewWindow_window_xor_error_witness :
  NewWindow working_backend 4 4 [] = Done ((Some sample_window, None), sample_construction)
  /\ (Some sample_window = None <-> @None err <> None).
Proof.
  split; [reflexivity|].
  apply (@NewWindow_window_xor_error working_backend 4 4 [] sample_construction
           (Some sample_window) None eq_refl).
Defined.

(** ** Release *)

(** [Release] returns on every window with a context, and its last call
    releases that context. *)
Lemma Release_returns (be : Backend) (w : Window) (t : trace) (c : handle) :
  ctx w = Some c ->
  exists (w' : Window) (calls : list event),
    Release be w t = Done (w', t ++ calls ++ [CallContextRelease c])
    /\ ctx w' = None.
Proof.
  destruct w as [sz cx dv gp tx]. cbn. intros ->.
  destruct (ctx_MakeCurrent be t c) as [e|] eqn:Hmc.
  - eexists _, [CallMakeCurrent c].
    unfold Release. step_io. rewrite Hmc. cbn. log_assoc. split; reflexivity.
  - eexists _, ([CallMakeCurrent c]
                ++ release_calls {| size := sz; ctx := Some c; dev := dv;
                                    gpu := gp; fboTex := tx |}
                ++ [CallReleaseCurrent c]).
    unfold Release, release_calls. step_io. rewrite Hmc.
    destruct tx, gp, dv; cbn; log_assoc; split; reflexivity.
Qed.

(** X16.  On a window with a context that can be made current, [Release]
    releases the texture, the renderer and the device that are set, in this
    order and with the context current, then the context, and leaves all
    four fields nil. *)
Theorem Release_releases_in_order (be : Backend) (w : Window) (t : trace) (c : handle) :
  ctx w = Some c ->
  ctx_MakeCurrent be t c = None ->
  Release be w t =
  Done (emptied w,
        t ++ [CallMakeCurrent c] ++ release_calls w
          ++ [CallReleaseCurrent c; CallContextRelease c]).
Proof.
  destruct w as [sz cx dv gp tx]. cbn. intros -> Hmc.
  unfold Release, release_calls, emptied. step_io. rewrite Hmc.
  destruct tx, gp, dv; cbn; log_assoc; reflexivity.
Qed.

Lemma Release_releases_in_order_witness :
  Release working_backend sample_window [] =
    Done (released_window,
          [CallMakeCurrent 1; CallTextureRelease 3; CallGpuRelease 4;
           CallDeviceRelease 2; CallReleaseCurrent 1; CallContextRelease 1])
  /\ Release working_backend bare_window [] =
       Done (released_window,
             [CallMakeCurrent 1; CallReleaseCurrent 1; CallContextRelease 1]).
Proof.
  split.
  - apply (@Release_releases_in_order working_backend sample_window [] 1%nat
             eq_refl eq_refl).
  - apply (@Release_releases_in_order working_backend bare_window [] 1%nat
             eq_refl eq_refl).
Defined.

(** X17.  When the context cannot be made current, [Release] releases the
    context alone and sets only that field to nil: texture, renderer and
    device stay in the window and are not released. *)
Theorem Release_not_current_keeps_objects
    (be : Backend) (w : Window) (t : trace) (c : handle) (e : err) :
  ctx w = Some c ->
  ctx_MakeCurrent be t c = Some e ->
  Release be w t =
  Done (without_ctx w, t ++ [CallMakeCurrent c; CallContextRelease c]).
Proof.
  destruct w as [sz cx dv gp tx]. cbn. intros -> Hmc.
  unfold Release, without_ctx. step_io. rewrite Hmc. cbn. log_assoc. reflexivity.
Qed.

Lemma Release_not_current_keeps_objects_witness :
  Release no_current_backend sample_window [] =
  Done ({| size := {| X := 4; Y := 4 |}; ctx := None; dev := Some 2%nat;
           gpu := Some 4%nat; fboTex := Some 3%nat |},
        [CallMakeCurrent 1; CallContextRelease 1]).
Proof.
  apply (@Release_not_current_keeps_objects no_current_backend sample_window []
           1%nat (BackendError 9) eq_refl eq_refl).
Defined.

(** ** Panics *)

(** X18.  Where the window operations panic: [Release] exactly when the
    context is nil; [Frame] exactly when the context is nil, or the context
    is made current and the renderer is nil; [Screenshot] exactly when the
    context is nil, or the context is made current and the readback, which
    is handed the device and the texture unchecked, panics. *)
Theorem window_operations_panic_iff (be : Backend) (w : Window) (t : trace) :
  ((exists p, Release be w t = Panic p) <-> ctx w = None)
  /\ (forall frame,
        (exists p, Frame be w frame t = Panic p) <->
        (ctx w = None
         \/ exists c, ctx w = Some c /\ ctx_MakeCurrent be t c = None /\ gpu w = None))
  /\ ((exists p, Screenshot be w t = Panic p) <->
      (ctx w = None
       \/ exists c p, ctx w = Some c /\ ctx_MakeCurrent be t c = None
            /\ driver_DownloadImage be (t ++ [CallMakeCurrent c])
                 (dev w) (fboTex w) {| Min := ZP; Max := size w |} = Panic p)).
Proof.
  destruct (ctx w) as [c|] eqn:Hc.
  - split; [|split].
    + destruct (Release_returns be w t Hc) as (w' & calls & H & _). rewrite H.
      split; [intros [p Hp]; discriminate Hp | discriminate].
    + intros frame. destruct (gpu w) as [g|] eqn:Hg.
      * rewrite (headless_facts.Frame_run be w frame t Hc Hg). split.
        -- intros [p Hp]. destruct (ctx_MakeCurrent be t c); discriminate Hp.
        -- intros [H|(c' & _ & _ & H)]; discriminate H.
      * unfold Frame. step_io. rewrite Hc.
        destruct (ctx_MakeCurrent be t c) as [e|] eqn:Hmc; cbn.
        -- split; [intros [p Hp]; discriminate Hp|].
           intros [H|(c' & [= <-] & H & _)]; [discriminate H | congruence].
        -- rewrite Hg. split; [|eauto]. intros _. right. exists c. auto.
    + rewrite (headless_facts.Screenshot_run be w t Hc). fold (full_region w).
      destruct (ctx_MakeCurrent be t c) as [e|] eqn:Hmc; cbv zeta.
      * split; [intros [p Hp]; discriminate Hp|].
        intros [H|(c' & p & [= <-] & H & _)]; [discriminate H | congruence].
      * destruct (driver_DownloadImage _ _ _ _ _) as [[img err]|p] eqn:Hrb.
        -- split; [intros [p Hp]; discriminate Hp|].
           intros [H|(c' & p & [= <-] & _ & H)]; [discriminate H|].
           rewrite Hrb in H. discriminate H.
        -- split; [|eauto]. intros _. right. exists c, p. rewrite Hrb. auto.
  - split; [|split].
    + rewrite (headless_facts.Release_nil_ctx_panics be w t Hc). split; eauto.
    + intros frame. unfold Frame. step_io. rewrite Hc. split; eauto.
    + unfold Screenshot. step_io. rewrite Hc. split; eauto.
Qed.

(** X19.  After a [Release] that returned, the window cannot be used: both
    [Frame] and [Screenshot] panic with a nil dereference. *)
Theorem use_after_Release_panics
    (be : Backend) (w w' : Window) (t t' : trace) :
  Release be w t = Done (w', t') ->
  (forall (be' : Backend) (frame : ops.Ops) (t'' : trace),
     Frame be' w' frame t'' = Panic NilDereference)
  /\ (forall (be' : Backend) (t'' : trace),
        Screenshot be' w' t'' = Panic NilDereference).
Proof.
  intros H. apply headless_facts.Release_clears_ctx in H.
  split; intros; unfold Frame, Screenshot; step_io; rewrite H; reflexivity.
Qed.

Lemma use_after_Release_panics_witness :
  Release working_backend sample_window [] =
    Done (released_window,
          [CallMakeCurrent 1; CallTextureRelease 3; CallGpuRelease 4;
           CallDeviceRelease 2; CallReleaseCurrent 1; CallContextRelease 1])
  /\ Frame working_backend released_window samples.empty_Ops [] = Panic NilDereference
  /\ Screenshot working_backend released_window [] = Panic NilDereference.
Proof.
  split; [reflexivity|].
  destruct (@use_after_Release_panics working_backend sample_window released_window
              [] _ eq_refl) as [HF HS].
  split; [apply HF | apply HS].
Defined.

(** X20.  Every window [NewWindow] returns can be released: [Release] does
    not panic on it, ends with the release of the window's context and
    leaves the context field nil. *)
Theorem NewWindow_then_Release
    (be : Backend) (width height : Z) (t t1 : trace) (w : Window) (e : error) :
  NewWindow be width height t = Done ((Some w, e), t1) ->
  forall (be' : Backend) (t2 : trace),
  exists (c : handle) (w' : Window) (calls : list event),
    ctx w = Some c
    /\ Release be' w t2 = Done (w', t2 ++ calls ++ [CallContextRelease c])
    /\ ctx w' = None.
Proof.
  intros H be' t2. apply NewWindow_returns in H as (_ & _ & c & Hc).
  exists c. destruct (Release_returns be' w t2 Hc) as (w' & calls & HR & Hn).
  exists w', calls. auto.
Qed.

Lemma NewWindow_then_Release_witness :
  exists (c : handle) (w' : Window) (calls : list event),
    ctx bare_window = Some c
    /\ Release working_backend bare_window [] =
       Done (w', [] ++ calls ++ [CallContextRelease c])
    /\ ctx w' = None.
Proof.
  apply (@NewWindow_then_Release texture_fails_backend 4 4 [] _ bare_window None
           eq_refl working_backend []).
Defined.

End lifecycle_facts.
